(** * SandboxClaim reconciliation: status calculation, sandbox state
      classification with its cache, and the validating webhook.

    The development embeds the Go functions of
      pkg/controller/sandboxclaim/core/util.go          (package core),
      the sandbox state helpers that follow it          (package sandboxutils),
      pkg/webhook/sandboxclaim/validating/sandboxclaim_validating.go
    as Rocq functions and proves properties of them.

    Conventions of the embedding.
    - A Go pointer that may be nil is an [option]; a nil slice and an empty
      slice are both the empty list (the code only ranges over, indexes and
      appends to slices, which does not distinguish the two).
    - [int32], [int64] and [time.Duration] values are integers in [Z]; no
      arithmetic is done on the replica counts or the generation, they are
      only copied and compared.
    - A [time.Time] is the instant it denotes, in nanoseconds on one time
      line; [time.Time.Sub] saturates to the range of [int64] as in Go.
    - Reading the wall clock is an effect: functions that call [metav1.Now]
      or [time.Since] live in the clock monad [M], whose state is the
      sequence of readings still to come.
    - A status is passed to the Go functions by pointer and updated in place;
      the embedding returns the updated status.  Log calls (klog) are
      dropped. *)

From Stdlib Require Import ZArith String Ascii List Lia Bool DecimalString
  DecimalZ Sorted.
From stdpp Require Import base option list strings gmap fin_maps.

Local Open Scope string_scope.
Local Open Scope Z_scope.

(* ===================================================================== *)
(** ** Go runtime: time, the clock, formatting *)
(* ===================================================================== *)

Module time.

(** An instant, in nanoseconds. *)
Definition Time := Z.

(** [time.Duration] is an [int64] count of nanoseconds. *)
Definition Duration := Z.

Definition minDuration : Duration := - 2 ^ 63.
Definition maxDuration : Duration := 2 ^ 63 - 1.

Definition Second : Duration := 1000000000.

(** [t.Sub(u)]: the duration [t-u], saturated to the representable
    minimum or maximum. *)
Definition Sub (t u : Time) : Duration :=
  let d := t - u in
  if d <? minDuration then minDuration
  else if maxDuration <? d then maxDuration
  else d.

End time.

(** The clock monad.  A clock is the infinite sequence of the readings that
    successive calls of [time.Now] will return. *)
Definition Clock := nat -> time.Time.

Definition M (A : Type) : Type := Clock -> A * Clock.

Definition ret {A} (a : A) : M A := fun c => (a, c).

Definition bind {A B} (m : M A) (k : A -> M B) : M B :=
  fun c => let (a, c') := m c in k a c'.

Notation "'let*' x ':=' m 'in' k" := (bind m (fun x => k))
  (at level 10, x name, m at level 100, k at level 200).

(** The clock after one reading. *)
Definition tick (c : Clock) : Clock := fun n => c (S n).

(** [time.Now()]. *)
Definition Now : M time.Time := fun c => (c 0%nat, tick c).

(** [time.Since(t)] is [time.Now().Sub(t)]. *)
Definition Since (t : time.Time) : M time.Duration :=
  let* now := Now in ret (time.Sub now t).

(** A clock that always shows [t]. *)
Definition constClock (t : time.Time) : Clock := fun _ => t.

Module fmt.

(** The verb [%d] applied to an integer: its decimal numeral, with a
    leading minus sign when negative. *)
Definition d (z : Z) : string := NilZero.string_of_int (Z.to_int z).

End fmt.

(* ===================================================================== *)
(** ** k8s.io/apimachinery/pkg/apis/meta/v1 *)
(* ===================================================================== *)

Module metav1.

(** [metav1.ConditionStatus] is a string type. *)
Definition ConditionStatus := string.
Definition ConditionTrue : ConditionStatus := "True".
Definition ConditionFalse : ConditionStatus := "False".
Definition ConditionUnknown : ConditionStatus := "Unknown".

Module Condition.
Record t := mk {
  Type_ : string;
  Status : ConditionStatus;
  ObservedGeneration : Z;
  LastTransitionTime : time.Time;
  Reason : string;
  Message : string
}.
End Condition.

Module OwnerReference.
Record t := mk {
  APIVersion : string;
  Kind : string;
  Name : string;
  UID : string;
  Controller : option bool
}.
End OwnerReference.

(** [metav1.Now()] wraps [time.Now()]. *)
Definition Now : M time.Time := Now.

(** [GetControllerOfNoCopy]: the first owner reference whose [Controller]
    pointer is set and true. *)
Fixpoint GetControllerOfNoCopy (refs : list OwnerReference.t)
  : option OwnerReference.t :=
  match refs with
  | [] => None
  | r :: refs' =>
      match OwnerReference.Controller r with
      | Some true => Some r
      | _ => GetControllerOfNoCopy refs'
      end
  end.

End metav1.

(* ===================================================================== *)
(** ** github.com/openkruise/agents/api/v1alpha1 *)
(* ===================================================================== *)

Module agentsv1alpha1.

(** Modelled from the spec: the package api/v1alpha1 declares the phase
    and condition names; the spec names the claim phases Claiming and
    Completed (the initial phase being the empty string) and the
    conditions Completed and TimedOut. *)
Definition SandboxClaimPhase := string.
Definition SandboxClaimPhaseClaiming : SandboxClaimPhase := "Claiming".
Definition SandboxClaimPhaseCompleted : SandboxClaimPhase := "Completed".

Definition SandboxClaimConditionCompleted : string := "Completed".
Definition SandboxClaimConditionTimedOut : string := "TimedOut".

Module SandboxClaimSpec.
Record t := mk {
  TemplateName : string;
  Replicas : option Z;
  ClaimTimeout : option time.Duration;
  TTLAfterCompleted : option time.Duration
}.
End SandboxClaimSpec.

Module SandboxClaimStatus.
Record t := mk {
  ObservedGeneration : Z;
  Phase : SandboxClaimPhase;
  Message : string;
  ClaimedReplicas : Z;
  ClaimStartTime : option time.Time;
  CompletionTime : option time.Time;
  Conditions : list metav1.Condition.t
}.

(** Field assignments [status.F = v]. *)
Definition set_ObservedGeneration (v : Z) (s : t) : t :=
  mk v (Phase s) (Message s) (ClaimedReplicas s) (ClaimStartTime s)
     (CompletionTime s) (Conditions s).
Definition set_Phase (v : SandboxClaimPhase) (s : t) : t :=
  mk (ObservedGeneration s) v (Message s) (ClaimedReplicas s)
     (ClaimStartTime s) (CompletionTime s) (Conditions s).
Definition set_Message (v : string) (s : t) : t :=
  mk (ObservedGeneration s) (Phase s) v (ClaimedReplicas s)
     (ClaimStartTime s) (CompletionTime s) (Conditions s).
Definition set_ClaimStartTime (v : option time.Time) (s : t) : t :=
  mk (ObservedGeneration s) (Phase s) (Message s) (ClaimedReplicas s)
     v (CompletionTime s) (Conditions s).
Definition set_CompletionTime (v : option time.Time) (s : t) : t :=
  mk (ObservedGeneration s) (Phase s) (Message s) (ClaimedReplicas s)
     (ClaimStartTime s) v (Conditions s).
Definition set_Conditions (v : list metav1.Condition.t) (s : t) : t :=
  mk (ObservedGeneration s) (Phase s) (Message s) (ClaimedReplicas s)
     (ClaimStartTime s) (CompletionTime s) v.
End SandboxClaimStatus.

Module SandboxClaim.
Record t := mk {
  Namespace : string;
  Name : string;
  Generation : Z;
  Spec : SandboxClaimSpec.t;
  Status : SandboxClaimStatus.t
}.
End SandboxClaim.

(** The pool descriptor.  Only its presence is inspected. *)
Module SandboxSet.
Record t := mk {
  Namespace : string;
  Name : string
}.
End SandboxSet.

End agentsv1alpha1.

(* ===================================================================== *)
(** ** package core: pkg/controller/sandboxclaim/core/util.go *)
(* ===================================================================== *)

Module core.

Import agentsv1alpha1.

(** Modelled from the spec: the constant is declared in another file of
    package core; the spec gives the default desired replica count as 1
    (the webhook uses the same literal). *)
Definition DefaultReplicasCount : Z := 1.

(** [ClaimArgs] is declared in another file of package core; the three
    fields below are the ones the functions of util.go read. *)
Module ClaimArgs.
Record t := mk {
  Claim : SandboxClaim.t;
  SandboxSet : option SandboxSet.t;
  NewStatus : SandboxClaimStatus.t
}.
End ClaimArgs.

(** getDesiredReplicas returns the desired number of replicas for a claim. *)
Definition getDesiredReplicas (claim : SandboxClaim.t) : Z :=
  match SandboxClaimSpec.Replicas (SandboxClaim.Spec claim) with
  | Some r => r
  | None => DefaultReplicasCount
  end.

(** isClaimTimeout checks if the claim has exceeded its timeout.  The
    clock is read only when both the timeout and the start time are set. *)
Definition isClaimTimeout (claim : SandboxClaim.t)
    (status : SandboxClaimStatus.t) : M bool :=
  match SandboxClaimSpec.ClaimTimeout (SandboxClaim.Spec claim),
        SandboxClaimStatus.ClaimStartTime status with
  | Some timeout, Some start =>
      let* elapsed := Since start in
      ret (timeout <=? elapsed)
  | _, _ => ret false
  end.

(** isReplicasMet checks if the desired number of replicas has been
    claimed. *)
Definition isReplicasMet (claim : SandboxClaim.t)
    (status : SandboxClaimStatus.t) : bool :=
  getDesiredReplicas claim <=? SandboxClaimStatus.ClaimedReplicas status.

(** setCondition sets or updates a condition in the condition list.  The
    argument is a pointer to a slice: [None] is the nil pointer, on which
    the function returns at once; the result is the slice the pointer
    refers to afterwards.  The loop stops at the first index whose entry
    has the type of the new condition and overwrites that entry. *)
Definition setCondition (conditions : option (list metav1.Condition.t))
    (newCondition : metav1.Condition.t)
  : option (list metav1.Condition.t) :=
  match conditions with
  | None => None
  | Some l =>
      match list_find
              (fun c => metav1.Condition.Type_ c
                        = metav1.Condition.Type_ newCondition) l with
      | Some (i, _) => Some (<[i := newCondition]> l)
      | None => Some (l ++ [newCondition])%list
      end
  end.

(** [setCondition(&status.Conditions, condition)]. *)
Definition setStatusCondition (condition : metav1.Condition.t)
    (status : SandboxClaimStatus.t) : SandboxClaimStatus.t :=
  match setCondition (Some (SandboxClaimStatus.Conditions status))
                     condition with
  | Some l => SandboxClaimStatus.set_Conditions l status
  | None => status
  end.

(** transitionToCompleted transitions the claim to Completed state with a
    generic reason. *)
Definition transitionToCompleted (status : SandboxClaimStatus.t)
    (reason message : string) : M SandboxClaimStatus.t :=
  let status := SandboxClaimStatus.set_Phase SandboxClaimPhaseCompleted status in
  let status := SandboxClaimStatus.set_Message message status in
  let* now := metav1.Now in
  let status := SandboxClaimStatus.set_CompletionTime (Some now) status in
  let condition :=
    metav1.Condition.mk SandboxClaimConditionCompleted
      metav1.ConditionTrue 0 now reason message in
  ret (setStatusCondition condition status).

(** transitionToCompletedWithSuccess transitions to Completed after
    successfully claiming all replicas. *)
Definition transitionToCompletedWithSuccess (status : SandboxClaimStatus.t)
    (claim : SandboxClaim.t) : M SandboxClaimStatus.t :=
  let desiredReplicas := getDesiredReplicas claim in
  let status := SandboxClaimStatus.set_Phase SandboxClaimPhaseCompleted status in
  let status :=
    SandboxClaimStatus.set_Message
      ("Successfully claimed "
         ++ fmt.d (SandboxClaimStatus.ClaimedReplicas status) ++ "/"
         ++ fmt.d desiredReplicas ++ " sandboxes") status in
  let* now := metav1.Now in
  let status := SandboxClaimStatus.set_CompletionTime (Some now) status in
  let condition :=
    metav1.Condition.mk SandboxClaimConditionCompleted
      metav1.ConditionTrue 0 now "AllReplicasClaimed"
      ("Successfully claimed all "
         ++ fmt.d (SandboxClaimStatus.ClaimedReplicas status)
         ++ " sandboxes") in
  ret (setStatusCondition condition status).

Section WithDurationFormat.

(** [%v] applied to a [time.Duration] prints [Duration.String()], a
    function of the Go library; it only feeds the timeout messages. *)
Variable DurationString : time.Duration -> string.

(** transitionToCompletedWithTimeout transitions to Completed due to
    timeout. *)
Definition transitionToCompletedWithTimeout
    (status : SandboxClaimStatus.t) (elapsed : time.Duration)
    (claim : SandboxClaim.t) : M SandboxClaimStatus.t :=
  let desiredReplicas := getDesiredReplicas claim in
  let status := SandboxClaimStatus.set_Phase SandboxClaimPhaseCompleted status in
  let status :=
    SandboxClaimStatus.set_Message
      ("Timeout reached after " ++ DurationString elapsed
         ++ ", claimed "
         ++ fmt.d (SandboxClaimStatus.ClaimedReplicas status) ++ "/"
         ++ fmt.d desiredReplicas ++ " sandboxes") status in
  let* now := metav1.Now in
  let status := SandboxClaimStatus.set_CompletionTime (Some now) status in
  (* Set TimedOut condition *)
  let condition :=
    metav1.Condition.mk SandboxClaimConditionTimedOut
      metav1.ConditionTrue 0 now "ClaimTimeoutReached"
      ("Timeout after " ++ DurationString elapsed ++ ", claimed "
         ++ fmt.d (SandboxClaimStatus.ClaimedReplicas status) ++ "/"
         ++ fmt.d desiredReplicas) in
  let status := setStatusCondition condition status in
  (* Also set Completed condition *)
  let completedCondition :=
    metav1.Condition.mk SandboxClaimConditionCompleted
      metav1.ConditionTrue 0 now "TimeoutReached"
      (SandboxClaimStatus.Message status) in
  ret (setStatusCondition completedCondition status).

(** CalculateClaimStatus determines the next phase of a SandboxClaim and
    whether to skip business logic. *)
Definition CalculateClaimStatus (args : ClaimArgs.t)
  : M (SandboxClaimStatus.t * bool) :=
  let claim := ClaimArgs.Claim args in
  let newStatus := ClaimArgs.NewStatus args in
  (* Always update ObservedGeneration to track spec changes *)
  let newStatus :=
    SandboxClaimStatus.set_ObservedGeneration
      (SandboxClaim.Generation claim) newStatus in
  (* 1. Handle initial state - directly transition to Claiming phase *)
  if String.eqb (SandboxClaimStatus.Phase newStatus) "" then
    let newStatus :=
      SandboxClaimStatus.set_Phase SandboxClaimPhaseClaiming newStatus in
    let* now := metav1.Now in
    let newStatus :=
      SandboxClaimStatus.set_ClaimStartTime (Some now) newStatus in
    ret (newStatus, false)
  (* 2. Handle terminal state *)
  else if String.eqb (SandboxClaimStatus.Phase newStatus)
                     SandboxClaimPhaseCompleted then
    ret (newStatus, false)
  else
    (* 3. Check if SandboxSet still exists *)
    match ClaimArgs.SandboxSet args with
    | None =>
        let* st := transitionToCompleted newStatus
                     "SandboxSetNotFound"
                     "SandboxSet not found or deleted" in
        ret (st, true)
    | Some _ =>
        (* 4. Early timeout detection *)
        let* timedOut := isClaimTimeout claim newStatus in
        if timedOut then
          match SandboxClaimStatus.ClaimStartTime newStatus with
          | Some start =>
              let* elapsed := Since start in
              let* st := transitionToCompletedWithTimeout
                           newStatus elapsed claim in
              ret (st, true)
          | None =>
              (* not reached: isClaimTimeout is false without a start
                 time (lemma isClaimTimeout_start below) *)
              ret (newStatus, false)
          end
        (* 5. Check if desired replicas already met *)
        else if isReplicasMet claim newStatus then
          let* st := transitionToCompletedWithSuccess newStatus claim in
          ret (st, true)
        else
          (* Continue with business logic *)
          ret (newStatus, false)
    end.

End WithDurationFormat.

End core.

(* ===================================================================== *)
(** ** package sandboxutils: sandbox state classification and its cache *)
(* ===================================================================== *)

Module sandboxapi.

(** Modelled from the spec: the package api/v1alpha1 declares the sandbox
    lifecycle phases (pending, running, paused, resuming, succeeded,
    failed, terminating), the derived states (creating, available,
    running, paused, dead), the Ready condition type and the kind of the
    pool controller; they are string constants, pairwise distinct within
    each group. *)
Definition SandboxPhase := string.
Definition SandboxPending : SandboxPhase := "Pending".
Definition SandboxRunning : SandboxPhase := "Running".
Definition SandboxPaused : SandboxPhase := "Paused".
Definition SandboxResuming : SandboxPhase := "Resuming".
Definition SandboxSucceeded : SandboxPhase := "Succeeded".
Definition SandboxFailed : SandboxPhase := "Failed".
Definition SandboxTerminating : SandboxPhase := "Terminating".

Definition SandboxStateCreating : string := "creating".
Definition SandboxStateAvailable : string := "available".
Definition SandboxStateRunning : string := "running".
Definition SandboxStatePaused : string := "paused".
Definition SandboxStateDead : string := "dead".

Definition SandboxConditionReady : string := "Ready".

Definition SandboxSetControllerKind_Kind : string := "SandboxSet".
Definition SandboxSetControllerKind_GroupVersion : string :=
  "agents.kruise.io/v1alpha1".

Module PodInfo.
Record t := mk { PodIP : string }.
End PodInfo.

Module SandboxSpec.
Record t := mk {
  Paused : bool;
  ShutdownTime : option time.Time
}.
End SandboxSpec.

Module SandboxStatus.
Record t := mk {
  Phase : SandboxPhase;
  Conditions : list metav1.Condition.t;
  PodInfo : PodInfo.t
}.
End SandboxStatus.

Module Sandbox.
Record t := mk {
  Namespace : string;
  Name : string;
  ResourceVersion : string;
  DeletionTimestamp : option time.Time;
  OwnerReferences : list metav1.OwnerReference.t;
  Spec : SandboxSpec.t;
  Status : SandboxStatus.t
}.
End Sandbox.

End sandboxapi.

Module sandboxutils.

Import sandboxapi.

(** sandboxStateCache stores cached state and reason for sandboxes. *)
Module sandboxStateCacheEntry.
Record t := mk {
  state : string;
  reason : string
}.
End sandboxStateCacheEntry.

(** A value stored in the [sync.Map], whose values have the dynamic type
    [interface{}]: a pointer to a cache entry, or a value of some other
    type, on which the type assertion of the reader fails. *)
Inductive any :=
| anyEntry (e : sandboxStateCacheEntry.t)
| anyOther (tag : nat).

(** The state of the package-level [sandboxStateCache].  Every key this
    package stores is a string built by [fmt.Sprintf], so the map is
    keyed by strings.  The functions below are given the cache and return
    it as they leave it: one call, run without interleaving. *)
Abbreviation Cache := (gmap string any).

Definition IsControlledBySandboxCR (sbx : Sandbox.t) : bool :=
  match metav1.GetControllerOfNoCopy (Sandbox.OwnerReferences sbx) with
  | None => false
  | Some controller =>
      String.eqb (metav1.OwnerReference.Kind controller)
                 SandboxSetControllerKind_Kind
      && String.eqb (metav1.OwnerReference.APIVersion controller)
                    SandboxSetControllerKind_GroupVersion
  end.

Definition GetSandboxID (sbx : Sandbox.t) : string :=
  Sandbox.Namespace sbx ++ "--" ++ Sandbox.Name sbx.

Section WithConditionLookup.

(** [utils.GetSandboxCondition] belongs to package pkg/utils: it looks a
    condition up by its type in a sandbox status and returns nil when
    there is none. *)
Variable GetSandboxCondition :
  SandboxStatus.t -> string -> option metav1.Condition.t.

Definition IsSandboxReady (sbx : Sandbox.t) : bool :=
  if String.eqb (PodInfo.PodIP (SandboxStatus.PodInfo (Sandbox.Status sbx))) ""
  then false
  else
    match GetSandboxCondition (Sandbox.Status sbx) SandboxConditionReady with
    | Some readyCond =>
        String.eqb (metav1.Condition.Status readyCond) metav1.ConditionTrue
    | None => false
    end.

(** The part of computeSandboxState that follows the checks on the
    deletion timestamp and the shutdown time. *)
Definition computeSandboxState_phase (sbx : Sandbox.t) : string * string :=
  let phase := SandboxStatus.Phase (Sandbox.Status sbx) in
  if String.eqb phase SandboxPending then
    (SandboxStateCreating, "ResourcePending")
  else if String.eqb phase SandboxSucceeded then
    (SandboxStateDead, "ResourceSucceeded")
  else if String.eqb phase SandboxFailed then
    (SandboxStateDead, "ResourceFailed")
  else if String.eqb phase SandboxTerminating then
    (SandboxStateDead, "ResourceTerminating")
  else
    let sandboxReady := IsSandboxReady sbx in
    if IsControlledBySandboxCR sbx then
      if sandboxReady then
        (SandboxStateAvailable, "ResourceControlledBySbsAndReady")
      else
        (SandboxStateCreating, "ResourceControlledBySbsButNotReady")
    else
      if String.eqb phase SandboxRunning then
        if SandboxSpec.Paused (Sandbox.Spec sbx) then
          (SandboxStatePaused, "RunningResourceClaimedAndPaused")
        else
          if sandboxReady then
            (SandboxStateRunning, "RunningResourceClaimedAndReady")
          else
            (SandboxStateDead, "RunningResourceClaimedButNotReady")
      else
        (* Paused and Resuming phases are both treated as paused state *)
        (SandboxStatePaused, "NotRunningResourceClaimed").

(** computeSandboxState computes the sandbox state without caching.  The
    clock is read only when the sandbox is not being deleted and has a
    shutdown time. *)
Definition computeSandboxState (sbx : Sandbox.t) : M (string * string) :=
  match Sandbox.DeletionTimestamp sbx with
  | Some _ => ret (SandboxStateDead, "ResourceDeleted")
  | None =>
      match SandboxSpec.ShutdownTime (Sandbox.Spec sbx) with
      | Some shutdown =>
          let* since := Since shutdown in
          if 0 <? since then ret (SandboxStateDead, "ShutdownTimeReached")
          else ret (computeSandboxState_phase sbx)
      | None => ret (computeSandboxState_phase sbx)
      end
  end.

(** [sandboxStateCache.LoadOrStore(key, value)]: the stored value and
    true when the key is present, else the given value and false after
    storing it. *)
Definition LoadOrStore (key : string) (value : any) (cache : Cache)
  : (any * bool) * Cache :=
  match cache !! key with
  | Some actual => ((actual, true), cache)
  | None => ((value, false), <[key := value]> cache)
  end.

(** GetSandboxState the state of agentsv1alpha1 Sandbox. *)
Definition GetSandboxState (sbx : Sandbox.t) (cache : Cache)
  : M ((string * string) * Cache) :=
  let resourceVersion := Sandbox.ResourceVersion sbx in
  (* ResourceVersion is empty, cannot safely cache. *)
  if String.eqb resourceVersion "" then
    let* r := computeSandboxState sbx in
    ret (r, cache)
  else
    (* Generate cache key: namespace/name/resourceVersion *)
    let cacheKey :=
      Sandbox.Namespace sbx ++ "/" ++ Sandbox.Name sbx ++ "/"
        ++ resourceVersion in
    (* Try to read from cache first *)
    match cache !! cacheKey with
    | Some (anyEntry e) =>
        ret ((sandboxStateCacheEntry.state e,
              sandboxStateCacheEntry.reason e), cache)
    | Some (anyOther _) =>
        (* Type assertion failed, cache entry corrupted. Recompute. *)
        let* r := computeSandboxState sbx in
        ret (r, cache)
    | None =>
        (* Cache miss, compute the state *)
        let* r := computeSandboxState sbx in
        let entry := anyEntry (sandboxStateCacheEntry.mk (fst r) (snd r)) in
        match LoadOrStore cacheKey entry cache with
        | ((actual, true), cache') =>
            match actual with
            | anyEntry e =>
                ret ((sandboxStateCacheEntry.state e,
                      sandboxStateCacheEntry.reason e), cache')
            | anyOther _ => ret (r, cache')
            end
        | ((_, false), cache') => ret (r, cache')
        end
    end.

End WithConditionLookup.

(** DeleteSandboxCache removes all cached entries for a sandbox from the
    cache: the range over the map deletes every key that starts with
    [namespace/name/]. *)
Definition DeleteSandboxCache (namespace name : string) (cache : Cache)
  : Cache :=
  if String.eqb namespace "" || String.eqb name "" then cache
  else
    let baseKey := namespace ++ "/" ++ name ++ "/" in
    filter (fun kv => String.prefix baseKey (fst kv) = false) cache.

End sandboxutils.

(* ===================================================================== *)
(** ** package validating: the SandboxClaim admission webhook *)
(* ===================================================================== *)

Module admission.

(** [admissionv1.Operation] is a string type. *)
Definition Create : string := "CREATE".
Definition Update : string := "UPDATE".
Definition Delete : string := "DELETE".
Definition Connect : string := "CONNECT".

Module Request.
Record t := mk {
  Operation : string;
  Object : string;       (* raw bytes of the new object *)
  OldObject : string     (* raw bytes of the old object *)
}.
End Request.

(** The admission response: the [Allowed] flag, the status code and the
    message of its result. *)
Module Response.
Record t := mk {
  Allowed : bool;
  Code : Z;
  Message : string
}.
End Response.

Definition StatusOK : Z := 200.
Definition StatusBadRequest : Z := 400.
Definition StatusForbidden : Z := 403.

Definition ValidationResponse (allowed : bool) (message : string)
  : Response.t :=
  Response.mk allowed (if allowed then StatusOK else StatusForbidden) message.

Definition Allowed (message : string) : Response.t :=
  ValidationResponse true message.

Definition Denied (message : string) : Response.t :=
  ValidationResponse false message.

Definition Errored (code : Z) (err : string) : Response.t :=
  Response.mk false code err.

(** The [admission.Decoder] interface: both methods fill a fresh object or
    fail with an error. *)
Class Decoder := {
  Decode : Request.t -> agentsv1alpha1.SandboxClaim.t + string;
  DecodeRaw : string -> agentsv1alpha1.SandboxClaim.t + string
}.

End admission.

Module validating.

Import agentsv1alpha1.

Section Handler.

Context `{h_Decoder : admission.Decoder}.

(** handleCreate validates SandboxClaim creation. *)
Definition handleCreate (req : admission.Request.t) : admission.Response.t :=
  match admission.Decode req with
  | inr err => admission.Errored admission.StatusBadRequest err
  | inl claim =>
      (* No special validation for create *)
      admission.Allowed ""
  end.

(** handleUpdate validates SandboxClaim update. *)
Definition handleUpdate (req : admission.Request.t) : admission.Response.t :=
  match admission.DecodeRaw (admission.Request.OldObject req) with
  | inr err =>
      admission.Errored admission.StatusBadRequest
        ("failed to decode old object: " ++ err)
  | inl oldClaim =>
      match admission.Decode req with
      | inr err =>
          admission.Errored admission.StatusBadRequest
            ("failed to decode new object: " ++ err)
      | inl newClaim =>
          (* Validate Replicas immutability *)
          let oldReplicas :=
            match SandboxClaimSpec.Replicas (SandboxClaim.Spec oldClaim) with
            | Some r => r
            | None => 1
            end in
          let newReplicas :=
            match SandboxClaimSpec.Replicas (SandboxClaim.Spec newClaim) with
            | Some r => r
            | None => 1
            end in
          if negb (oldReplicas =? newReplicas) then
            let msg :=
              "spec.replicas is immutable, cannot change from "
                ++ fmt.d oldReplicas ++ " to " ++ fmt.d newReplicas in
            admission.Denied msg
          else
            admission.Allowed ""
      end
  end.

(** Handle handles the admission request. *)
Definition Handle (req : admission.Request.t) : admission.Response.t :=
  let op := admission.Request.Operation req in
  if String.eqb op admission.Create then handleCreate req
  else if String.eqb op admission.Update then handleUpdate req
  else if String.eqb op admission.Delete then admission.Allowed ""
  else
    admission.Errored admission.StatusBadRequest
      ("unsupported operation: " ++ op).

End Handler.

End validating.

(* ===================================================================== *)
(** ** package clients: the resource version reactors of the fake client *)
(* ===================================================================== *)

Module clients.

Import sandboxapi.

(** An [int64] result: the integer reduced to the range of [int64]. *)
Definition wrapInt64 (z : Z) : Z := (z + 2 ^ 63) mod 2 ^ 64 - 2 ^ 63.

(** [atomic.AddInt64(&counter, delta)]: the new value, which is also the
    value the counter holds afterwards. *)
Definition AddInt64 (counter delta : Z) : Z := wrapInt64 (counter + delta).

(** [strconv.FormatInt(i, 10)]. *)
Definition FormatInt10 (i : Z) : string := fmt.d i.

(** A [runtime.Object] as [meta.Accessor] sees it: an object with metadata,
    here a sandbox, whose resource version can be read and set, or an object
    that does not implement the metadata interfaces. *)
Inductive Object :=
| sandboxObject (sbx : Sandbox.t)
| opaqueObject (tag : nat).

(** An action as the reactors see it: one that carries an object
    ([GetObject], which may return nil), on which the type assertion to
    [testing.CreateAction] or [testing.UpdateAction] succeeds, or any other
    action. *)
Inductive Action :=
| objectAction (obj : option Object)
| otherAction.

(** What a reactor returns: [handled], [ret] and [err]. *)
Module Reaction.
Record t := mk {
  handled : bool;
  ret : option Object;
  err : option string
}.
End Reaction.

Definition errNotObject : string :=
  "object does not implement the Object interfaces".

(** [metaObj.SetResourceVersion(rv)]. *)
Definition SetResourceVersion (rv : string) (sbx : Sandbox.t) : Sandbox.t :=
  Sandbox.mk (Sandbox.Namespace sbx) (Sandbox.Name sbx) rv
    (Sandbox.DeletionTimestamp sbx) (Sandbox.OwnerReferences sbx)
    (Sandbox.Spec sbx) (Sandbox.Status sbx).

(** The counter starts from 1. *)
Definition initialResourceVersionCounter : Z := 1.

(** The reactor registered for "create": it returns its three results, the
    action with its object as the reactor leaves it (the object is updated
    in place), and the counter. *)
Definition createReactor (action : Action) (resourceVersionCounter : Z)
  : Reaction.t * Action * Z :=
  match action with
  | otherAction =>
      (Reaction.mk false None None, action, resourceVersionCounter)
  | objectAction None =>
      (Reaction.mk false None None, action, resourceVersionCounter)
  | objectAction (Some (opaqueObject _)) =>
      (Reaction.mk false None (Some errNotObject), action,
       resourceVersionCounter)
  | objectAction (Some (sandboxObject metaObj)) =>
      (* If ResourceVersion is empty or "0", assign initial version *)
      let rv := Sandbox.ResourceVersion metaObj in
      if String.eqb rv "" || String.eqb rv "0" then
        let newRV := AddInt64 resourceVersionCounter 1 in
        (Reaction.mk false None None,
         objectAction
           (Some (sandboxObject
                    (SetResourceVersion (FormatInt10 newRV) metaObj))),
         newRV)
      else
        (Reaction.mk false None None, action, resourceVersionCounter)
  end.

(** The reactor registered for "update". *)
Definition updateReactor (action : Action) (resourceVersionCounter : Z)
  : Reaction.t * Action * Z :=
  match action with
  | otherAction =>
      (Reaction.mk false None None, action, resourceVersionCounter)
  | objectAction None =>
      (Reaction.mk false None None, action, resourceVersionCounter)
  | objectAction (Some (opaqueObject _)) =>
      (Reaction.mk false None (Some errNotObject), action,
       resourceVersionCounter)
  | objectAction (Some (sandboxObject metaObj)) =>
      (* Always increment ResourceVersion on update *)
      let newRV := AddInt64 resourceVersionCounter 1 in
      (Reaction.mk false None None,
       objectAction
         (Some (sandboxObject
                  (SetResourceVersion (FormatInt10 newRV) metaObj))),
       newRV)
  end.

(** GetCurrentResourceVersion is a placeholder that returns 0. *)
Definition GetCurrentResourceVersion : Z := 0.

End clients.

(* ===================================================================== *)
(** * Vocabulary of the statements *)
(* ===================================================================== *)

Import agentsv1alpha1.

(** The first condition of a list that has the given type. *)
Fixpoint findCondition (l : list metav1.Condition.t) (ty : string)
  : option metav1.Condition.t :=
  match l with
  | [] => None
  | x :: l' =>
      if String.eqb (metav1.Condition.Type_ x) ty then Some x
      else findCondition l' ty
  end.

(** The types of the entries of a condition list, in order. *)
Definition conditionTypes (l : list metav1.Condition.t) : list string :=
  map metav1.Condition.Type_ l.

(** The status as CalculateClaimStatus sees it after its first assignment,
    the one of ObservedGeneration. *)
Definition observed (args : core.ClaimArgs.t) : SandboxClaimStatus.t :=
  SandboxClaimStatus.set_ObservedGeneration
    (SandboxClaim.Generation (core.ClaimArgs.Claim args))
    (core.ClaimArgs.NewStatus args).

(** The status and the flag a call of CalculateClaimStatus returns, the
    clock left aside. *)
Definition result (DurationString : time.Duration -> string)
    (args : core.ClaimArgs.t) (c : Clock) : SandboxClaimStatus.t * bool :=
  fst (core.CalculateClaimStatus DurationString args c).

(** The phases a claim goes through, and their order:
    unset < Claiming < Completed.  Any other string is handled by the code
    like Claiming and ranks with it. *)
Definition knownPhase (p : SandboxClaimPhase) : Prop :=
  p = "" \/ p = SandboxClaimPhaseClaiming \/ p = SandboxClaimPhaseCompleted.

Definition phaseRank (p : SandboxClaimPhase) : nat :=
  if String.eqb p "" then 0%nat
  else if String.eqb p SandboxClaimPhaseCompleted then 2%nat
  else 1%nat.

(** One reconciliation pass: the claim and the pool descriptor that the pass
    loads, and the clock it runs with. *)
Record Pass := mkPass {
  pass_Claim : SandboxClaim.t;
  pass_SandboxSet : option SandboxSet.t;
  pass_clock : Clock
}.

(** The statuses returned by successive applications of
    CalculateClaimStatus, each one starting from the status the previous one
    returned. *)
Fixpoint successive (DurationString : time.Duration -> string)
    (passes : list Pass) (st : SandboxClaimStatus.t)
  : list SandboxClaimStatus.t :=
  match passes with
  | [] => []
  | p :: passes' =>
      let st' :=
        fst (result DurationString
               (core.ClaimArgs.mk (pass_Claim p) (pass_SandboxSet p) st)
               (pass_clock p)) in
      st' :: successive DurationString passes' st'
  end.

(** The effective desired replica count of a claim as the webhook reads it:
    an unset Replicas field counts as 1. *)
Definition effectiveReplicas (claim : SandboxClaim.t) : Z :=
  match SandboxClaimSpec.Replicas (SandboxClaim.Spec claim) with
  | Some r => r
  | None => 1
  end.

(** [st'] is [st] completed at [now] for the given reason: the phase is
    Completed, the completion time is [now], the Completed condition is True
    with that reason, the TimedOut condition is as before or freshly set,
    and the generation, the claimed count, the start time and the conditions
    of every other type are those of [st]. *)
Definition completedAt (now : time.Time) (reason : string)
    (st st' : SandboxClaimStatus.t) : Prop :=
  SandboxClaimStatus.Phase st' = SandboxClaimPhaseCompleted
  /\ SandboxClaimStatus.ObservedGeneration st'
     = SandboxClaimStatus.ObservedGeneration st
  /\ SandboxClaimStatus.ClaimedReplicas st'
     = SandboxClaimStatus.ClaimedReplicas st
  /\ SandboxClaimStatus.ClaimStartTime st'
     = SandboxClaimStatus.ClaimStartTime st
  /\ SandboxClaimStatus.CompletionTime st' = Some now
  /\ (exists message,
        findCondition (SandboxClaimStatus.Conditions st')
          SandboxClaimConditionCompleted
        = Some (metav1.Condition.mk SandboxClaimConditionCompleted
                  metav1.ConditionTrue 0 now reason message))
  /\ (findCondition (SandboxClaimStatus.Conditions st')
        SandboxClaimConditionTimedOut
      = findCondition (SandboxClaimStatus.Conditions st)
          SandboxClaimConditionTimedOut
      \/ exists message,
           findCondition (SandboxClaimStatus.Conditions st')
             SandboxClaimConditionTimedOut
           = Some (metav1.Condition.mk SandboxClaimConditionTimedOut
                     metav1.ConditionTrue 0 now "ClaimTimeoutReached"
                     message))
  /\ (forall ty : string,
        ty <> SandboxClaimConditionCompleted ->
        ty <> SandboxClaimConditionTimedOut ->
        findCondition (SandboxClaimStatus.Conditions st') ty
        = findCondition (SandboxClaimStatus.Conditions st) ty).

(** The key under which GetSandboxState caches a sandbox. *)
Definition cacheKey (sbx : sandboxapi.Sandbox.t) : string :=
  sandboxapi.Sandbox.Namespace sbx ++ "/" ++ sandboxapi.Sandbox.Name sbx
    ++ "/" ++ sandboxapi.Sandbox.ResourceVersion sbx.

(** A string without the separator of cache keys. *)
Fixpoint noSlash (s : string) : bool :=
  match s with
  | EmptyString => true
  | String a s' => negb (Ascii.eqb a "/") && noSlash s'
  end.

(** The five derived sandbox states. *)
Definition knownState (state : string) : Prop :=
  state = sandboxapi.SandboxStateCreating
  \/ state = sandboxapi.SandboxStateAvailable
  \/ state = sandboxapi.SandboxStateRunning
  \/ state = sandboxapi.SandboxStatePaused
  \/ state = sandboxapi.SandboxStateDead.

(** The update reactor applied to a sequence of sandboxes, one update action
    each, the counter passing from one call to the next. *)
Fixpoint updateAll (sbxs : list sandboxapi.Sandbox.t) (counter : Z)
  : list clients.Action * Z :=
  match sbxs with
  | [] => ([], counter)
  | sbx :: sbxs' =>
      let '(_, action', counter') :=
        clients.updateReactor
          (clients.objectAction (Some (clients.sandboxObject sbx)))
          counter in
      let '(actions, counter'') := updateAll sbxs' counter' in
      (action' :: actions, counter'')
  end.

(** The resource version of the object an action carries, if any. *)
Definition actionResourceVersion (action : clients.Action) : option string :=
  match action with
  | clients.objectAction (Some (clients.sandboxObject sbx)) =>
      Some (sandboxapi.Sandbox.ResourceVersion sbx)
  | _ => None
  end.

(** ** Concrete inputs *)

(** A stand-in for [Duration.String]: the count of nanoseconds. *)
Definition sampleDurationString (d : time.Duration) : string :=
  fmt.d d ++ "ns".

Definition emptyStatus : SandboxClaimStatus.t :=
  SandboxClaimStatus.mk 0 "" "" 0 None None [].

(** A claim for ten sandboxes with a timeout of five seconds, and the same
    claim with a timeout of minus ten seconds. *)
Definition claimTen : SandboxClaim.t :=
  SandboxClaim.mk "default" "claim-ten" 1
    (SandboxClaimSpec.mk "pool" (Some 10) (Some (5 * time.Second)) None)
    emptyStatus.

Definition claimNegativeTimeout : SandboxClaim.t :=
  SandboxClaim.mk "default" "claim-ten" 1
    (SandboxClaimSpec.mk "pool" (Some 10) (Some (- 10 * time.Second)) None)
    emptyStatus.

(** A claim that leaves Replicas and the timeout unset. *)
Definition claimDefault : SandboxClaim.t :=
  SandboxClaim.mk "default" "claim-default" 1
    (SandboxClaimSpec.mk "pool" None None None) emptyStatus.

Definition claimOne : SandboxClaim.t :=
  SandboxClaim.mk "default" "claim-default" 2
    (SandboxClaimSpec.mk "pool" (Some 1) None None) emptyStatus.

Definition poolA : SandboxSet.t := SandboxSet.mk "default" "pool".

(** A status in phase Claiming that started at second 100 with the given
    number of claimed replicas. *)
Definition claimingSince100 (claimed : Z) : SandboxClaimStatus.t :=
  SandboxClaimStatus.mk 1 SandboxClaimPhaseClaiming "" claimed
    (Some (100 * time.Second)) None [].

Definition condA : metav1.Condition.t :=
  metav1.Condition.mk "TestCondition" metav1.ConditionTrue 0 0
    "TestReason" "Test message".
Definition condB : metav1.Condition.t :=
  metav1.Condition.mk "AnotherCondition" metav1.ConditionFalse 0 0
    "AnotherReason" "Another message".
Definition condA' : metav1.Condition.t :=
  metav1.Condition.mk "TestCondition" metav1.ConditionFalse 0 3600
    "UpdatedReason" "Updated message".

(** A decoder for three raw objects: a claim without Replicas, a claim with
    Replicas 1 and a claim with Replicas 10; anything else fails. *)
Definition sampleDecodeRaw (raw : string) : SandboxClaim.t + string :=
  if String.eqb raw "unset" then inl claimDefault
  else if String.eqb raw "one" then inl claimOne
  else if String.eqb raw "ten" then inl claimTen
  else inr "cannot decode".

Definition sampleDecoder : admission.Decoder :=
  {| admission.Decode := fun req => sampleDecodeRaw (admission.Request.Object req);
     admission.DecodeRaw := sampleDecodeRaw |}.

(** A lookup of sandbox conditions by type that returns the first entry of
    the type. *)
Definition sampleGetSandboxCondition (status : sandboxapi.SandboxStatus.t)
    (ty : string) : option metav1.Condition.t :=
  findCondition (sandboxapi.SandboxStatus.Conditions status) ty.

(** A claimed sandbox in phase Running with an address and the given status
    of its Ready condition, pause flag and resource version. *)
Definition claimedSandbox (rv : string) (paused : bool)
    (ready : metav1.ConditionStatus) : sandboxapi.Sandbox.t :=
  sandboxapi.Sandbox.mk "default" "sbx-1" rv None []
    (sandboxapi.SandboxSpec.mk paused None)
    (sandboxapi.SandboxStatus.mk sandboxapi.SandboxRunning
       [metav1.Condition.mk sandboxapi.SandboxConditionReady ready 0 0
          "PodReady" ""]
       (sandboxapi.PodInfo.mk "10.0.0.7")).

(** A cache with one entry of another sandbox. *)
Definition sampleCache : gmap string sandboxutils.any :=
  {[ "default/sbx-2/17" :=
       sandboxutils.anyEntry
         (sandboxutils.sandboxStateCacheEntry.mk
            sandboxapi.SandboxStateRunning "RunningResourceClaimedAndReady") ]}.

(** A claiming status that already carries a condition of another type, and
    a completed status. *)
Definition claimingWithCondition : SandboxClaimStatus.t :=
  SandboxClaimStatus.mk 1 SandboxClaimPhaseClaiming "" 3
    (Some (100 * time.Second)) None [condA].

Definition completedStatus : SandboxClaimStatus.t :=
  SandboxClaimStatus.mk 1 SandboxClaimPhaseCompleted
    "Successfully claimed 10/10 sandboxes" 10
    (Some (100 * time.Second)) (Some (150 * time.Second))
    [metav1.Condition.mk SandboxClaimConditionCompleted metav1.ConditionTrue
       0 (150 * time.Second) "AllReplicasClaimed"
       "Successfully claimed all 10 sandboxes"].

(** Owner references: one that is no controller, a controller of another
    kind, and the controller reference of a SandboxSet. *)
Definition refPlain : metav1.OwnerReference.t :=
  metav1.OwnerReference.mk "v1" "ConfigMap" "settings" "uid-0" None.
Definition refDeployment : metav1.OwnerReference.t :=
  metav1.OwnerReference.mk "apps/v1" "Deployment" "web" "uid-1" (Some true).
Definition refSandboxSet : metav1.OwnerReference.t :=
  metav1.OwnerReference.mk sandboxapi.SandboxSetControllerKind_GroupVersion
    sandboxapi.SandboxSetControllerKind_Kind "pool" "uid-2" (Some true).

(** A ready sandbox with the given name, owners, phase, pause flag and
    shutdown time, at resource version 17. *)
Definition readySandbox (name : string)
    (owners : list metav1.OwnerReference.t) (phase : sandboxapi.SandboxPhase)
    (paused : bool) (shutdown : option time.Time) : sandboxapi.Sandbox.t :=
  sandboxapi.Sandbox.mk "default" name "17" None owners
    (sandboxapi.SandboxSpec.mk paused shutdown)
    (sandboxapi.SandboxStatus.mk phase
       [metav1.Condition.mk sandboxapi.SandboxConditionReady
          metav1.ConditionTrue 0 0 "PodReady" ""]
       (sandboxapi.PodInfo.mk "10.0.0.7")).

(** A cache that holds a value of a foreign type under the key of sbx-1 at
    version 17, beside the entry of sbx-2. *)
Definition foreignCache : gmap string sandboxutils.any :=
  <[ "default/sbx-1/17" := sandboxutils.anyOther 0%nat ]> sampleCache.

(* ===================================================================== *)
(** * Properties *)
(* ===================================================================== *)

(** ** The clock monad *)

Lemma run_ret {A} (a : A) (c : Clock) : ret a c = (a, c).
Proof. reflexivity. Qed.

Lemma run_bind {A B} (m : M A) (k : A -> M B) (c : Clock) :
  bind m k c = k (fst (m c)) (snd (m c)).
Proof. unfold bind. destruct (m c); reflexivity. Qed.

Lemma run_Now (c : Clock) : Now c = (c 0%nat, tick c).
Proof. reflexivity. Qed.

Lemma run_Since (t : time.Time) (c : Clock) :
  Since t c = (time.Sub (c 0%nat) t, tick c).
Proof. reflexivity. Qed.

(** [Sub] has the sign of the exact difference. *)
Lemma Sub_neg (t u : time.Time) : t < u -> time.Sub t u < 0.
Proof.
  intros Hlt. unfold time.Sub, time.minDuration, time.maxDuration.
  repeat case_match; lia.
Qed.

Lemma Sub_pos_iff (t u : time.Time) : 0 < time.Sub t u <-> u < t.
Proof.
  unfold time.Sub, time.minDuration, time.maxDuration.
  repeat case_match; lia.
Qed.

(** ** Condition lists *)

Section Conditions.

Implicit Types (l : list metav1.Condition.t) (c x : metav1.Condition.t).
Lemma setCondition_nil c : core.setCondition (Some []) c = Some [c].
Proof. reflexivity. Qed.

Lemma setCondition_cons x l c :
  core.setCondition (Some (x :: l)) c =
    if String.eqb (metav1.Condition.Type_ x) (metav1.Condition.Type_ c)
    then Some (c :: l)
    else cons x <$> core.setCondition (Some l) c.
Proof.
  unfold core.setCondition. cbn [list_find].
  destruct (String.eqb_spec (metav1.Condition.Type_ x)
                            (metav1.Condition.Type_ c)) as [Heq|Hne].
  - rewrite decide_True by done. reflexivity.
  - rewrite decide_False by done.
    destruct (list_find _ l) as [[i y]|]; reflexivity.
Qed.

(** On a non-nil pointer the call always leaves a list behind. *)
Lemma setCondition_Some l c : exists l', core.setCondition (Some l) c = Some l'.
Proof.
  unfold core.setCondition. destruct (list_find _ l) as [[i y]|]; eauto.
Qed.

Lemma setCondition_replace l1 old l2 c :
  Forall (fun x => metav1.Condition.Type_ x <> metav1.Condition.Type_ c) l1 ->
  metav1.Condition.Type_ old = metav1.Condition.Type_ c ->
  core.setCondition (Some (l1 ++ old :: l2)%list) c
    = Some (l1 ++ c :: l2)%list.
Proof.
  intros Hl1 Hold. induction Hl1 as [|x l1 Hx _ IH]; cbn [app].
  - rewrite setCondition_cons.
    apply String.eqb_eq in Hold. rewrite Hold. reflexivity.
  - rewrite setCondition_cons.
    apply String.eqb_neq in Hx. rewrite Hx, IH. reflexivity.
Qed.

Lemma setCondition_append l c :
  Forall (fun x => metav1.Condition.Type_ x <> metav1.Condition.Type_ c) l ->
  core.setCondition (Some l) c = Some (l ++ [c])%list.
Proof.
  induction 1 as [|x l Hx _ IH].
  - reflexivity.
  - rewrite setCondition_cons.
    apply String.eqb_neq in Hx. rewrite Hx, IH. reflexivity.
Qed.

(** Every list splits at the first entry of a given type, if any. *)
Lemma split_at_type l (ty : string) :
  Forall (fun x => metav1.Condition.Type_ x <> ty) l
  \/ exists l1 old l2,
       l = (l1 ++ old :: l2)%list
       /\ Forall (fun x => metav1.Condition.Type_ x <> ty) l1
       /\ metav1.Condition.Type_ old = ty.
Proof.
  induction l as [|x l IH].
  - left. constructor.
  - destruct (String.eqb_spec (metav1.Condition.Type_ x) ty) as [Heq|Hne].
    + right. exists [], x, l. repeat split; [constructor | exact Heq].
    + destruct IH as [Hall | (l1 & old & l2 & -> & Hl1 & Hold)].
      * left. constructor; assumption.
      * right. exists (x :: l1), old, l2.
        repeat split; [constructor; assumption | exact Hold].
Qed.

Lemma findCondition_setCondition_same l c l' :
  core.setCondition (Some l) c = Some l' ->
  findCondition l' (metav1.Condition.Type_ c) = Some c.
Proof.
  revert l'. induction l as [|x l IH]; intros l'.
  - rewrite setCondition_nil. intros [= <-]. cbn.
    rewrite String.eqb_refl. reflexivity.
  - rewrite setCondition_cons.
    destruct (String.eqb _ _) eqn:E.
    + intros [= <-]. cbn. rewrite String.eqb_refl. reflexivity.
    + destruct (core.setCondition (Some l) c) as [l0|] eqn:E0; [|discriminate].
      cbn. intros [= <-]. cbn. rewrite E. apply IH. reflexivity.
Qed.

Lemma findCondition_setCondition_other l c l' (ty : string) :
  metav1.Condition.Type_ c <> ty ->
  core.setCondition (Some l) c = Some l' ->
  findCondition l' ty = findCondition l ty.
Proof.
  intros Hty. apply String.eqb_neq in Hty.
  revert l'. induction l as [|x l IH]; intros l'.
  - rewrite setCondition_nil. intros [= <-]. cbn. rewrite Hty. reflexivity.
  - rewrite setCondition_cons.
    destruct (String.eqb_spec (metav1.Condition.Type_ x)
                              (metav1.Condition.Type_ c)) as [Heq|Hne].
    + intros [= <-]. cbn. rewrite Heq, Hty. reflexivity.
    + destruct (core.setCondition (Some l) c) as [l0|] eqn:E0; [|discriminate].
      cbn. intros [= <-]. cbn.
      destruct (String.eqb (metav1.Condition.Type_ x) ty); [reflexivity|].
      apply IH. reflexivity.
Qed.

Lemma findCondition_elem_of l (ty : string) c :
  findCondition l ty = Some c -> c ∈ l /\ metav1.Condition.Type_ c = ty.
Proof.
  induction l as [|x l IH]; cbn; [discriminate|].
  destruct (String.eqb_spec (metav1.Condition.Type_ x) ty) as [Heq|Hne].
  - intros [= <-]. split; [left | exact Heq].
  - intros H. destruct (IH H) as [Hin Hty]. split; [right; exact Hin | exact Hty].
Qed.

End Conditions.

(** *** C6 *)

(** C6. setCondition: on the nil pointer nothing happens; when the list has
    an entry of the new condition's type, the first such entry is replaced
    in place, so that the length, the other entries and their order stay
    as they were; when it has none, exactly one entry is appended; a list
    with at most one entry per type keeps that property. *)
Theorem C6_setCondition (l : list metav1.Condition.t) (c : metav1.Condition.t) :
  core.setCondition None c = None
  /\ (forall l1 old l2,
        l = (l1 ++ old :: l2)%list ->
        Forall (fun x => metav1.Condition.Type_ x <> metav1.Condition.Type_ c) l1 ->
        metav1.Condition.Type_ old = metav1.Condition.Type_ c ->
        core.setCondition (Some l) c = Some (l1 ++ c :: l2)%list
        /\ length (l1 ++ c :: l2)%list = length l)
  /\ (Forall (fun x => metav1.Condition.Type_ x <> metav1.Condition.Type_ c) l ->
        core.setCondition (Some l) c = Some (l ++ [c])%list)
  /\ (NoDup (conditionTypes l) ->
        exists l', core.setCondition (Some l) c = Some l'
                   /\ NoDup (conditionTypes l')).
Proof.
  split; [reflexivity|]. split; [|split].
  - intros l1 old l2 -> Hl1 Hold. split.
    + apply setCondition_replace; assumption.
    + rewrite !length_app. reflexivity.
  - apply setCondition_append.
  - intros Hnd.
    destruct (split_at_type l (metav1.Condition.Type_ c))
      as [Hall | (l1 & old & l2 & -> & Hl1 & Hold)].
    + exists (l ++ [c])%list. split; [apply setCondition_append; exact Hall|].
      unfold conditionTypes in *. rewrite map_app. cbn.
      apply NoDup_app. split; [exact Hnd|]. split; [|apply NoDup_singleton].
      intros ty Hin Hin'. apply list_elem_of_singleton in Hin'. subst ty.
      apply list_elem_of_fmap in Hin as (x & Hx & Hxl).
      rewrite Forall_forall in Hall. apply (Hall x Hxl). symmetry. exact Hx.
    + exists (l1 ++ c :: l2)%list.
      split; [apply setCondition_replace; assumption|].
      unfold conditionTypes in *. rewrite map_app in *. cbn in *.
      rewrite <- Hold. exact Hnd.
Qed.

(** ** CalculateClaimStatus *)

Section ClaimStatus.

Variable DurationString : time.Duration -> string.

Local Abbreviation CalculateClaimStatus :=
  (core.CalculateClaimStatus DurationString).
Local Abbreviation outcome := (result DurationString).

Implicit Types (args : core.ClaimArgs.t) (st : SandboxClaimStatus.t)
  (claim : SandboxClaim.t) (c : Clock).

(** *** setStatusCondition only touches the conditions *)

Lemma setStatusCondition_fields cond st :
  let st' := core.setStatusCondition cond st in
  SandboxClaimStatus.Phase st' = SandboxClaimStatus.Phase st
  /\ SandboxClaimStatus.ObservedGeneration st'
     = SandboxClaimStatus.ObservedGeneration st
  /\ SandboxClaimStatus.Message st' = SandboxClaimStatus.Message st
  /\ SandboxClaimStatus.ClaimedReplicas st'
     = SandboxClaimStatus.ClaimedReplicas st
  /\ SandboxClaimStatus.ClaimStartTime st'
     = SandboxClaimStatus.ClaimStartTime st
  /\ SandboxClaimStatus.CompletionTime st'
     = SandboxClaimStatus.CompletionTime st.
Proof.
  unfold core.setStatusCondition.
  destruct (core.setCondition _ cond); cbn; repeat split.
Qed.

Lemma setStatusCondition_find_same cond st :
  findCondition
    (SandboxClaimStatus.Conditions (core.setStatusCondition cond st))
    (metav1.Condition.Type_ cond) = Some cond.
Proof.
  unfold core.setStatusCondition.
  destruct (setCondition_Some (SandboxClaimStatus.Conditions st) cond)
    as [l' Hl'].
  rewrite Hl'. cbn. eapply findCondition_setCondition_same, Hl'.
Qed.

Lemma setStatusCondition_find_other cond st (ty : string) :
  metav1.Condition.Type_ cond <> ty ->
  findCondition
    (SandboxClaimStatus.Conditions (core.setStatusCondition cond st)) ty
  = findCondition (SandboxClaimStatus.Conditions st) ty.
Proof.
  intros Hty. unfold core.setStatusCondition.
  destruct (setCondition_Some (SandboxClaimStatus.Conditions st) cond)
    as [l' Hl'].
  rewrite Hl'. cbn. eapply findCondition_setCondition_other; eassumption.
Qed.

(** *** The timeout check *)

Lemma isClaimTimeout_observed args c :
  core.isClaimTimeout (core.ClaimArgs.Claim args) (observed args) c
  = core.isClaimTimeout (core.ClaimArgs.Claim args)
      (core.ClaimArgs.NewStatus args) c.
Proof. reflexivity. Qed.

(** The check answers true only for a status that has a start time, so
    the dereference of the start time that follows it is safe. *)
Lemma isClaimTimeout_start claim st c :
  fst (core.isClaimTimeout claim st c) = true ->
  exists start, SandboxClaimStatus.ClaimStartTime st = Some start.
Proof.
  unfold core.isClaimTimeout.
  destruct (SandboxClaimSpec.ClaimTimeout _); [|discriminate].
  destruct (SandboxClaimStatus.ClaimStartTime st) as [start|];
    [eauto | discriminate].
Qed.

Lemma isClaimTimeout_set claim st c (timeout : time.Duration)
    (start : time.Time) :
  SandboxClaimSpec.ClaimTimeout (SandboxClaim.Spec claim) = Some timeout ->
  SandboxClaimStatus.ClaimStartTime st = Some start ->
  core.isClaimTimeout claim st c
  = (timeout <=? time.Sub (c 0%nat) start, tick c).
Proof.
  intros Ht Hs. unfold core.isClaimTimeout. rewrite Ht, Hs. reflexivity.
Qed.

(** *** The six scenarios of the function, one equation each *)

Lemma calc_initial args c :
  SandboxClaimStatus.Phase (core.ClaimArgs.NewStatus args) = "" ->
  CalculateClaimStatus args c
  = ((SandboxClaimStatus.set_ClaimStartTime (Some (c 0%nat))
        (SandboxClaimStatus.set_Phase SandboxClaimPhaseClaiming
           (observed args)), false), tick c).
Proof.
  intros Hp. unfold core.CalculateClaimStatus. cbn.
  rewrite Hp. reflexivity.
Qed.

Lemma calc_completed args c :
  SandboxClaimStatus.Phase (core.ClaimArgs.NewStatus args)
    = SandboxClaimPhaseCompleted ->
  CalculateClaimStatus args c = ((observed args, false), c).
Proof.
  intros Hp. unfold core.CalculateClaimStatus. cbn.
  rewrite Hp. reflexivity.
Qed.

Lemma calc_running args c :
  SandboxClaimStatus.Phase (core.ClaimArgs.NewStatus args) <> "" ->
  SandboxClaimStatus.Phase (core.ClaimArgs.NewStatus args)
    <> SandboxClaimPhaseCompleted ->
  CalculateClaimStatus args c
  = match core.ClaimArgs.SandboxSet args with
    | None =>
        (fst (core.transitionToCompleted (observed args)
                "SandboxSetNotFound" "SandboxSet not found or deleted" c),
         true, tick c)
    | Some _ =>
        let t := core.isClaimTimeout (core.ClaimArgs.Claim args)
                   (core.ClaimArgs.NewStatus args) c in
        if fst t then
          match SandboxClaimStatus.ClaimStartTime
                  (core.ClaimArgs.NewStatus args) with
          | Some start =>
              (fst (core.transitionToCompletedWithTimeout DurationString
                      (observed args)
                      (time.Sub (snd t 0%nat) start)
                      (core.ClaimArgs.Claim args) (tick (snd t))),
               true, tick (tick (snd t)))
          | None => (observed args, false, snd t)
          end
        else if core.isReplicasMet (core.ClaimArgs.Claim args)
                  (core.ClaimArgs.NewStatus args) then
          (fst (core.transitionToCompletedWithSuccess (observed args)
                  (core.ClaimArgs.Claim args) (snd t)),
           true, tick (snd t))
        else (observed args, false, snd t)
    end.
Proof.
  intros H1 H2. apply String.eqb_neq in H1, H2.
  unfold core.CalculateClaimStatus. cbn.
  rewrite H1, H2.
  destruct (core.ClaimArgs.SandboxSet args); [|reflexivity].
  rewrite run_bind.
  change (core.isClaimTimeout (core.ClaimArgs.Claim args) _ c)
    with (core.isClaimTimeout (core.ClaimArgs.Claim args)
            (observed args) c).
  rewrite isClaimTimeout_observed.
  destruct (fst (core.isClaimTimeout _ _ c)).
  - cbn. destruct (SandboxClaimStatus.ClaimStartTime _); reflexivity.
  - unfold core.isReplicasMet. cbn.
    destruct (_ <=? _); reflexivity.
Qed.

(** *** What each transition writes *)

Lemma transitionToCompleted_run st (reason message : string) c :
  core.transitionToCompleted st reason message c
  = (core.setStatusCondition
       (metav1.Condition.mk SandboxClaimConditionCompleted
          metav1.ConditionTrue 0 (c 0%nat) reason message)
       (SandboxClaimStatus.set_CompletionTime (Some (c 0%nat))
          (SandboxClaimStatus.set_Message message
             (SandboxClaimStatus.set_Phase SandboxClaimPhaseCompleted st))),
     tick c).
Proof. reflexivity. Qed.

Lemma transitionToCompletedWithSuccess_run st claim c :
  core.transitionToCompletedWithSuccess st claim c
  = (core.setStatusCondition
       (metav1.Condition.mk SandboxClaimConditionCompleted
          metav1.ConditionTrue 0 (c 0%nat) "AllReplicasClaimed"
          ("Successfully claimed all "
             ++ fmt.d (SandboxClaimStatus.ClaimedReplicas st)
             ++ " sandboxes"))
       (SandboxClaimStatus.set_CompletionTime (Some (c 0%nat))
          (SandboxClaimStatus.set_Message
             ("Successfully claimed "
                ++ fmt.d (SandboxClaimStatus.ClaimedReplicas st) ++ "/"
                ++ fmt.d (core.getDesiredReplicas claim) ++ " sandboxes")
             (SandboxClaimStatus.set_Phase SandboxClaimPhaseCompleted st))),
     tick c).
Proof. reflexivity. Qed.

Lemma transitionToCompletedWithTimeout_run st (elapsed : time.Duration)
    claim c :
  let message :=
    "Timeout reached after " ++ DurationString elapsed ++ ", claimed "
      ++ fmt.d (SandboxClaimStatus.ClaimedReplicas st) ++ "/"
      ++ fmt.d (core.getDesiredReplicas claim) ++ " sandboxes" in
  core.transitionToCompletedWithTimeout DurationString st elapsed claim c
  = (core.setStatusCondition
       (metav1.Condition.mk SandboxClaimConditionCompleted
          metav1.ConditionTrue 0 (c 0%nat) "TimeoutReached" message)
       (core.setStatusCondition
          (metav1.Condition.mk SandboxClaimConditionTimedOut
             metav1.ConditionTrue 0 (c 0%nat) "ClaimTimeoutReached"
             ("Timeout after " ++ DurationString elapsed ++ ", claimed "
                ++ fmt.d (SandboxClaimStatus.ClaimedReplicas st) ++ "/"
                ++ fmt.d (core.getDesiredReplicas claim)))
          (SandboxClaimStatus.set_CompletionTime (Some (c 0%nat))
             (SandboxClaimStatus.set_Message message
                (SandboxClaimStatus.set_Phase
                   SandboxClaimPhaseCompleted st)))),
     tick c).
Proof.
  intros message. unfold core.transitionToCompletedWithTimeout.
  rewrite run_bind. cbn [fst snd metav1.Now Now ret].
  unfold ret. do 3 f_equal.
  destruct (setStatusCondition_fields
              (metav1.Condition.mk SandboxClaimConditionTimedOut
                 metav1.ConditionTrue 0 (c 0%nat) "ClaimTimeoutReached"
                 ("Timeout after " ++ DurationString elapsed ++ ", claimed "
                    ++ fmt.d (SandboxClaimStatus.ClaimedReplicas st) ++ "/"
                    ++ fmt.d (core.getDesiredReplicas claim)))
              (SandboxClaimStatus.set_CompletionTime (Some (c 0%nat))
                 (SandboxClaimStatus.set_Message message
                    (SandboxClaimStatus.set_Phase
                       SandboxClaimPhaseCompleted st))))
    as (_ & _ & Hm & _).
  exact Hm.
Qed.

Lemma transitionToCompletedWithTimeout_fields st (elapsed : time.Duration)
    claim c :
  let st' := fst (core.transitionToCompletedWithTimeout DurationString
                    st elapsed claim c) in
  SandboxClaimStatus.Phase st' = SandboxClaimPhaseCompleted
  /\ SandboxClaimStatus.ObservedGeneration st'
     = SandboxClaimStatus.ObservedGeneration st
  /\ SandboxClaimStatus.ClaimedReplicas st'
     = SandboxClaimStatus.ClaimedReplicas st.
Proof.
  intros st'. subst st'. rewrite transitionToCompletedWithTimeout_run.
  cbn [fst].
  repeat match goal with
         | |- context [core.setStatusCondition ?cond ?s] =>
             let H := fresh in
             pose proof (setStatusCondition_fields cond s) as H;
             cbn zeta in H;
             destruct H as (-> & -> & _ & -> & _ & _)
         end.
  cbn. repeat split.
Qed.

(** *** C1 *)

(** C1 (amended). For a claim in phase Claiming whose pool descriptor
    (SandboxSet) is absent, CalculateClaimStatus returns
    skipBusinessLogic = true and a status with phase Completed, the
    completion time set to the clock reading of the call, and a Completed
    condition with status True whose reason is "SandboxSetNotFound". *)
Theorem C1_pool_absent_completes args c :
  SandboxClaimStatus.Phase (core.ClaimArgs.NewStatus args)
    = SandboxClaimPhaseClaiming ->
  core.ClaimArgs.SandboxSet args = None ->
  exists st',
    outcome args c = (st', true)
    /\ SandboxClaimStatus.Phase st' = SandboxClaimPhaseCompleted
    /\ SandboxClaimStatus.CompletionTime st' = Some (c 0%nat)
    /\ SandboxClaimStatus.Message st' = "SandboxSet not found or deleted"
    /\ findCondition (SandboxClaimStatus.Conditions st')
          SandboxClaimConditionCompleted
        = Some (metav1.Condition.mk SandboxClaimConditionCompleted
                  metav1.ConditionTrue 0 (c 0%nat) "SandboxSetNotFound"
                  "SandboxSet not found or deleted").
Proof.
  intros Hp Hs. unfold result.
  rewrite calc_running by (rewrite Hp; discriminate).
  rewrite Hs, transitionToCompleted_run. cbn [fst].
  eexists. split; [reflexivity|].
  match goal with
  | |- context [core.setStatusCondition ?cond ?s] =>
      pose proof (setStatusCondition_fields cond s) as Hf;
      pose proof (setStatusCondition_find_same cond s) as Hc
  end.
  cbn zeta in Hf. destruct Hf as (-> & _ & -> & _ & _ & ->).
  repeat split. exact Hc.
Qed.

(** *** C4 *)

(** C4 (amended). When the claim has a timeout that is not negative and
    the status has a claim start time strictly after the clock reading,
    isClaimTimeout returns false, and CalculateClaimStatus does not take
    the timeout transition: it leaves the TimedOut condition of the status
    as it was, and for a claim that is neither new nor completed and whose
    pool is present it goes on to the replica check. *)
Theorem C4_future_start_no_timeout args c (timeout : time.Duration)
    (start : time.Time) :
  SandboxClaimSpec.ClaimTimeout
    (SandboxClaim.Spec (core.ClaimArgs.Claim args)) = Some timeout ->
  SandboxClaimStatus.ClaimStartTime (core.ClaimArgs.NewStatus args)
    = Some start ->
  c 0%nat < start ->
  0 <= timeout ->
  fst (core.isClaimTimeout (core.ClaimArgs.Claim args)
         (core.ClaimArgs.NewStatus args) c) = false
  /\ findCondition (SandboxClaimStatus.Conditions (fst (outcome args c)))
        SandboxClaimConditionTimedOut
      = findCondition
          (SandboxClaimStatus.Conditions (core.ClaimArgs.NewStatus args))
          SandboxClaimConditionTimedOut
  /\ (SandboxClaimStatus.Phase (core.ClaimArgs.NewStatus args) <> "" ->
      SandboxClaimStatus.Phase (core.ClaimArgs.NewStatus args)
        <> SandboxClaimPhaseCompleted ->
      core.ClaimArgs.SandboxSet args <> None ->
      outcome args c
      = if core.isReplicasMet (core.ClaimArgs.Claim args)
             (core.ClaimArgs.NewStatus args)
        then (fst (core.transitionToCompletedWithSuccess (observed args)
                     (core.ClaimArgs.Claim args) (tick c)), true)
        else (observed args, false)).
Proof.
  intros Ht Hs Hlt Hnn.
  pose proof (isClaimTimeout_set _ _ c _ _ Ht Hs) as Hrun.
  assert (Hfalse : (timeout <=? time.Sub (c 0%nat) start) = false).
  { apply Z.leb_gt. pose proof (Sub_neg _ _ Hlt). lia. }
  rewrite Hfalse in Hrun.
  assert (Hstep : SandboxClaimStatus.Phase (core.ClaimArgs.NewStatus args) <> "" ->
      SandboxClaimStatus.Phase (core.ClaimArgs.NewStatus args)
        <> SandboxClaimPhaseCompleted ->
      core.ClaimArgs.SandboxSet args <> None ->
      outcome args c
      = if core.isReplicasMet (core.ClaimArgs.Claim args)
             (core.ClaimArgs.NewStatus args)
        then (fst (core.transitionToCompletedWithSuccess (observed args)
                     (core.ClaimArgs.Claim args) (tick c)), true)
        else (observed args, false)).
  { intros H1 H2 H3. unfold result. rewrite calc_running by assumption.
    destruct (core.ClaimArgs.SandboxSet args); [|congruence].
    cbn zeta. rewrite Hrun. cbn [fst snd].
    destruct (core.isReplicasMet _ _); reflexivity. }
  split; [rewrite Hrun; reflexivity|]. split; [|exact Hstep].
  destruct (String.eqb_spec
              (SandboxClaimStatus.Phase (core.ClaimArgs.NewStatus args)) "")
    as [H1|H1].
  { unfold result. rewrite calc_initial by exact H1. reflexivity. }
  destruct (String.eqb_spec
              (SandboxClaimStatus.Phase (core.ClaimArgs.NewStatus args))
              SandboxClaimPhaseCompleted) as [H2|H2].
  { unfold result. rewrite calc_completed by exact H2. reflexivity. }
  destruct (core.ClaimArgs.SandboxSet args) as [sbs|] eqn:Hsbs.
  - rewrite Hstep by congruence.
    destruct (core.isReplicasMet _ _); [|reflexivity].
    rewrite transitionToCompletedWithSuccess_run. cbn [fst].
    rewrite setStatusCondition_find_other by discriminate. reflexivity.
  - unfold result. rewrite calc_running by assumption.
    rewrite Hsbs, transitionToCompleted_run. cbn [fst].
    rewrite setStatusCondition_find_other by discriminate. reflexivity.
Qed.

(** *** C5 *)

(** C5. For a claim in phase Claiming whose pool descriptor is present and
    whose timeout check does not fire: the desired replica count is
    Spec.Replicas when set and 1 otherwise; skipBusinessLogic is true
    exactly when claimedReplicas >= desiredReplicas; in that case the
    status returned has phase Completed, a completion time (the clock
    reading that follows the timeout check) and a Completed condition with
    status True and reason "AllReplicasClaimed"; when claimedReplicas <
    desiredReplicas the status comes back with its phase unchanged and
    skipBusinessLogic is false. *)
Theorem C5_replicas_met_threshold args c (sbs : SandboxSet.t) :
  SandboxClaimStatus.Phase (core.ClaimArgs.NewStatus args)
    = SandboxClaimPhaseClaiming ->
  core.ClaimArgs.SandboxSet args = Some sbs ->
  fst (core.isClaimTimeout (core.ClaimArgs.Claim args)
         (core.ClaimArgs.NewStatus args) c) = false ->
  let claim := core.ClaimArgs.Claim args in
  let st := core.ClaimArgs.NewStatus args in
  let desired := core.getDesiredReplicas claim in
  let claimed := SandboxClaimStatus.ClaimedReplicas st in
  let now := snd (core.isClaimTimeout claim st c) 0%nat in
  desired = match SandboxClaimSpec.Replicas (SandboxClaim.Spec claim) with
            | Some r => r
            | None => 1
            end
  /\ (snd (outcome args c) = true <-> desired <= claimed)
  /\ (desired <= claimed ->
      exists st',
        outcome args c = (st', true)
        /\ SandboxClaimStatus.Phase st' = SandboxClaimPhaseCompleted
        /\ SandboxClaimStatus.CompletionTime st' = Some now
        /\ findCondition (SandboxClaimStatus.Conditions st')
              SandboxClaimConditionCompleted
            = Some (metav1.Condition.mk SandboxClaimConditionCompleted
                      metav1.ConditionTrue 0 now "AllReplicasClaimed"
                      ("Successfully claimed all " ++ fmt.d claimed
                         ++ " sandboxes")))
  /\ (claimed < desired ->
      outcome args c = (observed args, false)
      /\ SandboxClaimStatus.Phase (fst (outcome args c))
         = SandboxClaimStatus.Phase st).
Proof.
  intros Hp Hs Ht claim st desired claimed now.
  assert (Hres : outcome args c
                 = if desired <=? claimed
                   then (fst (core.transitionToCompletedWithSuccess
                                (observed args) claim
                                (snd (core.isClaimTimeout claim st c))),
                         true)
                   else (observed args, false)).
  { unfold result. rewrite calc_running by (rewrite Hp; discriminate).
    rewrite Hs. cbn zeta. rewrite Ht.
    unfold core.isReplicasMet. subst desired claimed claim st.
    destruct (_ <=? _); reflexivity. }
  split; [reflexivity|]. split; [|split].
  - rewrite Hres. destruct (Z.leb_spec desired claimed); cbn; split;
      (congruence || lia).
  - intros Hle. apply Z.leb_le in Hle. rewrite Hres, Hle.
    rewrite transitionToCompletedWithSuccess_run. cbn [fst].
    eexists. split; [reflexivity|].
    match goal with
    | |- context [core.setStatusCondition ?cond ?s] =>
        pose proof (setStatusCondition_fields cond s) as Hf;
        pose proof (setStatusCondition_find_same cond s) as Hc
    end.
    cbn zeta in Hf. destruct Hf as (-> & _ & _ & _ & _ & ->).
    repeat split. exact Hc.
  - intros Hlt. apply Z.leb_gt in Hlt. rewrite Hres, Hlt.
    split; reflexivity.
Qed.

(** *** C2 *)

Lemma success_fields st claim c :
  let st' := fst (core.transitionToCompletedWithSuccess st claim c) in
  SandboxClaimStatus.Phase st' = SandboxClaimPhaseCompleted
  /\ SandboxClaimStatus.ObservedGeneration st'
     = SandboxClaimStatus.ObservedGeneration st
  /\ SandboxClaimStatus.ClaimedReplicas st'
     = SandboxClaimStatus.ClaimedReplicas st.
Proof.
  intros st'. subst st'. rewrite transitionToCompletedWithSuccess_run.
  cbn [fst].
  match goal with
  | |- context [core.setStatusCondition ?cond ?s] =>
      pose proof (setStatusCondition_fields cond s) as H;
      cbn zeta in H; destruct H as (-> & -> & _ & -> & _ & _)
  end.
  cbn. repeat split.
Qed.

Lemma completed_fields st (reason message : string) c :
  let st' := fst (core.transitionToCompleted st reason message c) in
  SandboxClaimStatus.Phase st' = SandboxClaimPhaseCompleted
  /\ SandboxClaimStatus.ObservedGeneration st'
     = SandboxClaimStatus.ObservedGeneration st
  /\ SandboxClaimStatus.ClaimedReplicas st'
     = SandboxClaimStatus.ClaimedReplicas st.
Proof.
  intros st'. subst st'. rewrite transitionToCompleted_run.
  cbn [fst].
  match goal with
  | |- context [core.setStatusCondition ?cond ?s] =>
      pose proof (setStatusCondition_fields cond s) as H;
      cbn zeta in H; destruct H as (-> & -> & _ & -> & _ & _)
  end.
  cbn. repeat split.
Qed.


(** *** C3 *)

(** One call never lowers the rank of the phase, keeps a known phase
    known, and keeps Completed. *)
Lemma phase_step args c :
  let p := SandboxClaimStatus.Phase (core.ClaimArgs.NewStatus args) in
  let p' := SandboxClaimStatus.Phase (fst (outcome args c)) in
  (phaseRank p <= phaseRank p')%nat
  /\ (knownPhase p -> knownPhase p')
  /\ (p = SandboxClaimPhaseCompleted -> p' = SandboxClaimPhaseCompleted).
Proof.
  intros p p'. subst p p'.
  destruct (String.eqb_spec
              (SandboxClaimStatus.Phase (core.ClaimArgs.NewStatus args)) "")
    as [H1|H1].
  { unfold result. rewrite calc_initial by exact H1. cbn [fst].
    rewrite H1. cbn. split; [lia|]. split; [|discriminate].
    intros _. right; left; reflexivity. }
  destruct (String.eqb_spec
              (SandboxClaimStatus.Phase (core.ClaimArgs.NewStatus args))
              SandboxClaimPhaseCompleted) as [H2|H2].
  { unfold result. rewrite calc_completed by exact H2. cbn [fst].
    cbn. split; [lia|]. split; intros; assumption. }
  assert (Hrank : forall q, q = SandboxClaimPhaseCompleted
                            \/ q = SandboxClaimStatus.Phase
                                     (core.ClaimArgs.NewStatus args) ->
            (phaseRank (SandboxClaimStatus.Phase
                          (core.ClaimArgs.NewStatus args)) <= phaseRank q)%nat
            /\ (knownPhase (SandboxClaimStatus.Phase
                              (core.ClaimArgs.NewStatus args)) ->
                knownPhase q)
            /\ (SandboxClaimStatus.Phase (core.ClaimArgs.NewStatus args)
                  = SandboxClaimPhaseCompleted ->
                q = SandboxClaimPhaseCompleted)).
  { intros q [-> | ->].
    - split; [|split; [|reflexivity]].
      + unfold phaseRank. apply String.eqb_neq in H1, H2.
        rewrite H1, H2. cbn. lia.
      + intros _. right; right; reflexivity.
    - split; [lia|]. split; intros; assumption. }
  apply Hrank.
  unfold result. rewrite calc_running by assumption.
  destruct (core.ClaimArgs.SandboxSet args) as [sbs|].
  - cbn zeta. destruct (fst (core.isClaimTimeout _ _ c)).
    + destruct (SandboxClaimStatus.ClaimStartTime _) as [start|].
      * left. cbn [fst].
        apply (transitionToCompletedWithTimeout_fields
                 (observed args) _ (core.ClaimArgs.Claim args) _).
      * right. reflexivity.
    + destruct (core.isReplicasMet _ _).
      * left. cbn [fst].
        apply (success_fields (observed args) (core.ClaimArgs.Claim args) _).
      * right. reflexivity.
  - left. cbn [fst]. apply (completed_fields (observed args) _ _ c).
Qed.

Lemma successive_rank passes : forall st,
  Forall (fun s => (phaseRank (SandboxClaimStatus.Phase st)
                    <= phaseRank (SandboxClaimStatus.Phase s))%nat
                   /\ (knownPhase (SandboxClaimStatus.Phase st) ->
                       knownPhase (SandboxClaimStatus.Phase s))
                   /\ (SandboxClaimStatus.Phase st = SandboxClaimPhaseCompleted ->
                       SandboxClaimStatus.Phase s = SandboxClaimPhaseCompleted))
         (successive DurationString passes st).
Proof.
  induction passes as [|p passes IH]; intros st; cbn [successive].
  - constructor.
  - pose proof (phase_step
                  (core.ClaimArgs.mk (pass_Claim p) (pass_SandboxSet p) st)
                  (pass_clock p)) as Hstep.
    cbn zeta in Hstep. cbn [core.ClaimArgs.NewStatus] in Hstep.
    destruct Hstep as (Hr & Hk & Hc).
    constructor; [repeat split; assumption|].
    eapply Forall_impl; [apply IH|].
    cbn beta. intros s (Hr' & Hk' & Hc').
    repeat split; [lia | auto | auto].
Qed.

Lemma successive_sorted passes : forall st,
  StronglySorted (fun p q => (phaseRank p <= phaseRank q)%nat)
    (map SandboxClaimStatus.Phase
       (st :: successive DurationString passes st)).
Proof.
  induction passes as [|p passes IH]; intros st.
  - cbn. constructor; constructor.
  - cbn [map]. constructor.
    + cbn [successive]. apply (IH _).
    + apply Forall_map. eapply Forall_impl; [apply successive_rank|].
      cbn beta. intros s (Hr & _); exact Hr.
Qed.

(** C3. Starting from a status whose phase is unset, Claiming or Completed,
    the phases of the statuses returned by successive applications of
    CalculateClaimStatus (whatever claim, pool descriptor and clock each
    application is given) are all among unset, Claiming and Completed and
    never decrease in the order unset < Claiming < Completed; and a call on
    a status whose phase is Completed returns a status whose phase is
    Completed, so that every later phase is Completed as well. *)
Theorem C3_phase_monotone (passes : list Pass) st :
  knownPhase (SandboxClaimStatus.Phase st) ->
  let phases :=
    map SandboxClaimStatus.Phase
      (st :: successive DurationString passes st) in
  Forall knownPhase phases
  /\ StronglySorted (fun p q => (phaseRank p <= phaseRank q)%nat) phases
  /\ (forall args c,
        SandboxClaimStatus.Phase (core.ClaimArgs.NewStatus args)
          = SandboxClaimPhaseCompleted ->
        SandboxClaimStatus.Phase (fst (outcome args c))
          = SandboxClaimPhaseCompleted)
  /\ (SandboxClaimStatus.Phase st = SandboxClaimPhaseCompleted ->
      Forall (fun p => p = SandboxClaimPhaseCompleted) phases).
Proof.
  intros Hk phases. subst phases. split; [|split; [|split]].
  - cbn [map]. constructor; [exact Hk|].
    apply Forall_map. eapply Forall_impl; [apply successive_rank|].
    cbn beta. intros s (_ & Hk' & _). auto.
  - apply successive_sorted.
  - intros args c Hc. apply (phase_step args c). exact Hc.
  - intros Hc. cbn [map]. constructor; [exact Hc|].
    apply Forall_map. eapply Forall_impl; [apply successive_rank|].
    cbn beta. intros s (_ & _ & Hc'). auto.
Qed.

End ClaimStatus.

(** ** Sandbox state classification and its cache *)

Section Classification.

Import sandboxapi.

Variable GetSandboxCondition :
  SandboxStatus.t -> string -> option metav1.Condition.t.

Local Abbreviation IsSandboxReady :=
  (sandboxutils.IsSandboxReady GetSandboxCondition).
Local Abbreviation computeSandboxState :=
  (sandboxutils.computeSandboxState GetSandboxCondition).
Local Abbreviation GetSandboxState :=
  (sandboxutils.GetSandboxState GetSandboxCondition).

(** Readiness: an assigned address and a Ready condition that is True. *)
Lemma IsSandboxReady_iff (sbx : Sandbox.t) :
  IsSandboxReady sbx = true <->
  PodInfo.PodIP (SandboxStatus.PodInfo (Sandbox.Status sbx)) <> ""
  /\ exists readyCond,
       GetSandboxCondition (Sandbox.Status sbx) SandboxConditionReady
         = Some readyCond
       /\ metav1.Condition.Status readyCond = metav1.ConditionTrue.
Proof.
  unfold sandboxutils.IsSandboxReady.
  destruct (String.eqb_spec
              (PodInfo.PodIP (SandboxStatus.PodInfo (Sandbox.Status sbx))) "")
    as [Hip|Hip].
  - split; [discriminate | intros [H _]; contradiction].
  - destruct (GetSandboxCondition _ _) as [readyCond|].
    + rewrite String.eqb_eq. split.
      * intros Hs. split; [exact Hip|]. exists readyCond. split; [reflexivity | exact Hs].
      * intros (_ & rc & [= <-] & Hs). exact Hs.
    + split; [discriminate | intros (_ & rc & [=] & _)].
Qed.

(** Without a deletion timestamp and without an elapsed shutdown time the
    classification is decided by the phase, the owner and the readiness. *)
Lemma computeSandboxState_alive (sbx : Sandbox.t) (c : Clock) :
  Sandbox.DeletionTimestamp sbx = None ->
  (forall t, SandboxSpec.ShutdownTime (Sandbox.Spec sbx) = Some t ->
             c 0%nat <= t) ->
  fst (computeSandboxState sbx c)
  = sandboxutils.computeSandboxState_phase GetSandboxCondition sbx.
Proof.
  intros Hd Hs. unfold sandboxutils.computeSandboxState. rewrite Hd.
  destruct (SandboxSpec.ShutdownTime (Sandbox.Spec sbx)) as [t|];
    [|reflexivity].
  rewrite run_bind, run_Since. cbn [fst snd].
  specialize (Hs t eq_refl).
  destruct (Z.ltb_spec 0 (time.Sub (c 0%nat) t)) as [Hpos|Hle];
    [|reflexivity].
  apply (proj1 (Sub_pos_iff _ _)) in Hpos. lia.
Qed.

(** *** C8 *)

(** C8. A sandbox that is not being deleted, has no elapsed shutdown time,
    is in lifecycle phase Running and is not controlled by a SandboxSet is
    classified Paused when its pause flag is set; otherwise Running when it
    is ready (a non-empty pod address and a Ready condition whose status is
    True); otherwise Dead. *)
Theorem C8_claimed_running_classification (sbx : Sandbox.t) (c : Clock) :
  Sandbox.DeletionTimestamp sbx = None ->
  (forall t, SandboxSpec.ShutdownTime (Sandbox.Spec sbx) = Some t ->
             c 0%nat <= t) ->
  SandboxStatus.Phase (Sandbox.Status sbx) = SandboxRunning ->
  sandboxutils.IsControlledBySandboxCR sbx = false ->
  (IsSandboxReady sbx = true <->
     PodInfo.PodIP (SandboxStatus.PodInfo (Sandbox.Status sbx)) <> ""
     /\ exists readyCond,
          GetSandboxCondition (Sandbox.Status sbx) SandboxConditionReady
            = Some readyCond
          /\ metav1.Condition.Status readyCond = metav1.ConditionTrue)
  /\ fst (computeSandboxState sbx c)
     = if SandboxSpec.Paused (Sandbox.Spec sbx)
       then (SandboxStatePaused, "RunningResourceClaimedAndPaused")
       else if IsSandboxReady sbx
            then (SandboxStateRunning, "RunningResourceClaimedAndReady")
            else (SandboxStateDead, "RunningResourceClaimedButNotReady").
Proof.
  intros Hd Hs Hp Ho. split; [apply IsSandboxReady_iff|].
  rewrite computeSandboxState_alive by assumption.
  unfold sandboxutils.computeSandboxState_phase.
  rewrite Hp, Ho. cbn. reflexivity.
Qed.

(** *** C9 *)

(** C9. For a sandbox whose resourceVersion is the empty string,
    GetSandboxState returns the pair computed by computeSandboxState and
    the cache it was given, whatever that cache holds: the result does not
    depend on the cache and nothing is stored. *)
Theorem C9_empty_resource_version_bypasses_cache (sbx : Sandbox.t)
    (cache : gmap string sandboxutils.any) (c : Clock) :
  Sandbox.ResourceVersion sbx = "" ->
  GetSandboxState sbx cache c
  = (fst (computeSandboxState sbx c), cache, snd (computeSandboxState sbx c))
  /\ (forall cache' : gmap string sandboxutils.any,
        fst (fst (GetSandboxState sbx cache' c))
        = fst (fst (GetSandboxState sbx cache c))
        /\ snd (fst (GetSandboxState sbx cache' c)) = cache').
Proof.
  intros Hrv.
  assert (Hrun : forall m : gmap string sandboxutils.any,
             GetSandboxState sbx m c
             = (fst (computeSandboxState sbx c), m,
                snd (computeSandboxState sbx c))).
  { intros m. unfold sandboxutils.GetSandboxState. rewrite Hrv.
    cbn [String.eqb]. rewrite run_bind. reflexivity. }
  split; [apply Hrun|].
  intros cache'. rewrite !Hrun. split; reflexivity.
Qed.

End Classification.

(** *** C10 *)

(** C10. DeleteSandboxCache called with an empty namespace or an empty name
    leaves the cache as it is. *)
Theorem C10_delete_empty_identity_keeps_cache (namespace name : string)
    (cache : gmap string sandboxutils.any) :
  namespace = "" \/ name = "" ->
  sandboxutils.DeleteSandboxCache namespace name cache = cache.
Proof.
  intros [-> | ->]; unfold sandboxutils.DeleteSandboxCache.
  - reflexivity.
  - rewrite orb_true_r. reflexivity.
Qed.

(** With a namespace and a name, the entries of that sandbox go and the
    others stay. *)
Lemma DeleteSandboxCache_lookup (namespace name key : string)
    (cache : gmap string sandboxutils.any) :
  namespace <> "" -> name <> "" ->
  sandboxutils.DeleteSandboxCache namespace name cache !! key
  = if String.prefix (namespace ++ "/" ++ name ++ "/") key then None
    else cache !! key.
Proof.
  intros Hns Hn. apply String.eqb_neq in Hns, Hn.
  unfold sandboxutils.DeleteSandboxCache. rewrite Hns, Hn. cbn [orb].
  destruct (String.prefix _ key) eqn:E.
  - apply map_lookup_filter_None. right. intros x _. cbn. congruence.
  - destruct (cache !! key) as [v|] eqn:Hl.
    + apply map_lookup_filter_Some. split; [exact Hl | exact E].
    + apply map_lookup_filter_None. left. exact Hl.
Qed.

(** ** The validating webhook *)

(** *** C7 *)

(** An update request is handled by handleUpdate. *)
Lemma Handle_update `{admission.Decoder} (req : admission.Request.t) :
  admission.Request.Operation req = admission.Update ->
  validating.Handle req = validating.handleUpdate req.
Proof. intros Hop. unfold validating.Handle. rewrite Hop. reflexivity. Qed.

(** C7. For an update request whose old and new objects both decode, the
    webhook denies the request exactly when the effective desired replica
    counts differ, an unset Replicas field counting as 1 on both sides;
    when they are equal the request is allowed. *)
Theorem C7_update_denied_iff_replicas_change `{admission.Decoder}
    (req : admission.Request.t) (oldClaim newClaim : SandboxClaim.t) :
  admission.Request.Operation req = admission.Update ->
  admission.DecodeRaw (admission.Request.OldObject req) = inl oldClaim ->
  admission.Decode req = inl newClaim ->
  (effectiveReplicas oldClaim <> effectiveReplicas newClaim ->
     validating.Handle req
     = admission.Denied
         ("spec.replicas is immutable, cannot change from "
            ++ fmt.d (effectiveReplicas oldClaim) ++ " to "
            ++ fmt.d (effectiveReplicas newClaim)))
  /\ (effectiveReplicas oldClaim = effectiveReplicas newClaim ->
        validating.Handle req = admission.Allowed "")
  /\ (admission.Response.Allowed (validating.Handle req) = false
        <-> effectiveReplicas oldClaim <> effectiveReplicas newClaim).
Proof.
  intros Hop Hold Hnew. rewrite (Handle_update req Hop).
  unfold validating.handleUpdate. rewrite Hold, Hnew.
  fold (effectiveReplicas oldClaim). fold (effectiveReplicas newClaim).
  destruct (Z.eqb_spec (effectiveReplicas oldClaim)
                       (effectiveReplicas newClaim)) as [Heq|Hne]; cbn [negb].
  - split; [intros; contradiction|]. split; [reflexivity|].
    cbn. split; [discriminate | intros; contradiction].
  - split; [reflexivity|]. split; [intros; contradiction|].
    cbn. split; [intros _; exact Hne | reflexivity].
Qed.

(* ===================================================================== *)
(** * The theorems at concrete inputs *)
(* ===================================================================== *)

(** The pool of a claim that holds three sandboxes has gone: the call at
    second 200 completes the claim with reason SandboxSetNotFound. *)
Lemma C1_pool_absent_witness :
  SandboxClaimStatus.Phase (claimingSince100 3) = SandboxClaimPhaseClaiming
  /\ exists st',
       result sampleDurationString
         (core.ClaimArgs.mk claimTen None (claimingSince100 3))
         (constClock (200 * time.Second)) = (st', true)
       /\ SandboxClaimStatus.Phase st' = SandboxClaimPhaseCompleted
       /\ SandboxClaimStatus.CompletionTime st' = Some (200 * time.Second)
       /\ SandboxClaimStatus.Message st' = "SandboxSet not found or deleted"
       /\ findCondition (SandboxClaimStatus.Conditions st')
             SandboxClaimConditionCompleted
           = Some (metav1.Condition.mk SandboxClaimConditionCompleted
                     metav1.ConditionTrue 0 (200 * time.Second)
                     "SandboxSetNotFound" "SandboxSet not found or deleted").
Proof.
  split; [reflexivity|].
  apply (C1_pool_absent_completes sampleDurationString
           (core.ClaimArgs.mk claimTen None (claimingSince100 3))
           (constClock (200 * time.Second))); reflexivity.
Defined.

(** The same call: no condition of the status returned has the reason
    PoolNotFound, and its message is not PoolNotFound either. *)
Lemma C1_reason_counterexample :
  let args := core.ClaimArgs.mk claimTen None (claimingSince100 3) in
  let st' := fst (result sampleDurationString args
                    (constClock (200 * time.Second))) in
  SandboxClaimStatus.Phase (core.ClaimArgs.NewStatus args)
    = SandboxClaimPhaseClaiming
  /\ core.ClaimArgs.SandboxSet args = None
  /\ Forall (fun cond => metav1.Condition.Reason cond <> "PoolNotFound")
        (SandboxClaimStatus.Conditions st')
  /\ SandboxClaimStatus.Message st' <> "PoolNotFound".
Proof.
  cbn zeta. split; [reflexivity|]. split; [reflexivity|].
  split; [|vm_compute; discriminate].
  vm_compute. repeat constructor. discriminate.
Qed.



(** A new claim, reconciled four times; the pool has gone at the third
    pass. *)
Lemma C3_phase_monotone_witness :
  let passes :=
    [ mkPass claimTen (Some poolA) (constClock (100 * time.Second));
      mkPass claimTen (Some poolA) (constClock (101 * time.Second));
      mkPass claimTen None (constClock (102 * time.Second));
      mkPass claimTen (Some poolA) (constClock (103 * time.Second)) ] in
  map SandboxClaimStatus.Phase
    (emptyStatus :: successive sampleDurationString passes emptyStatus)
  = [""; "Claiming"; "Claiming"; "Completed"; "Completed"]
  /\ StronglySorted (fun p q => (phaseRank p <= phaseRank q)%nat)
       [""; "Claiming"; "Claiming"; "Completed"; "Completed"].
Proof.
  cbn zeta. split; [vm_compute; reflexivity|].
  apply (C3_phase_monotone sampleDurationString
           [ mkPass claimTen (Some poolA) (constClock (100 * time.Second));
             mkPass claimTen (Some poolA) (constClock (101 * time.Second));
             mkPass claimTen None (constClock (102 * time.Second));
             mkPass claimTen (Some poolA) (constClock (103 * time.Second)) ]
           emptyStatus).
  left. reflexivity.
Defined.

(** With a timeout of minus ten seconds, a start time five seconds ahead of
    the clock is reported as timed out. *)
Lemma C4_negative_timeout_counterexample :
  let st := claimingSince100 3 in
  let c := constClock (95 * time.Second) in
  SandboxClaimSpec.ClaimTimeout (SandboxClaim.Spec claimNegativeTimeout)
    = Some (- 10 * time.Second)
  /\ SandboxClaimStatus.ClaimStartTime st = Some (100 * time.Second)
  /\ c 0%nat < 100 * time.Second
  /\ fst (core.isClaimTimeout claimNegativeTimeout st c) = true
  /\ snd (result sampleDurationString
            (core.ClaimArgs.mk claimNegativeTimeout (Some poolA) st) c) = true
  /\ findCondition
       (SandboxClaimStatus.Conditions
          (fst (result sampleDurationString
                  (core.ClaimArgs.mk claimNegativeTimeout (Some poolA) st) c)))
       SandboxClaimConditionTimedOut
     <> None.
Proof.
  cbn zeta. repeat split; try reflexivity. vm_compute. discriminate.
Qed.

(** With the timeout of five seconds, the same status and clock give no
    timeout. *)
Lemma C4_future_start_witness :
  fst (core.isClaimTimeout claimTen (claimingSince100 3)
         (constClock (95 * time.Second))) = false
  /\ result sampleDurationString
       (core.ClaimArgs.mk claimTen (Some poolA) (claimingSince100 3))
       (constClock (95 * time.Second))
     = (claimingSince100 3, false).
Proof.
  destruct (C4_future_start_no_timeout sampleDurationString
              (core.ClaimArgs.mk claimTen (Some poolA) (claimingSince100 3))
              (constClock (95 * time.Second))
              (5 * time.Second) (100 * time.Second)
              eq_refl eq_refl eq_refl)
    as (Hcheck & _ & Hstep).
  { discriminate. }
  split; [exact Hcheck|].
  rewrite Hstep by discriminate. reflexivity.
Defined.

(** Ten of ten replicas claimed: the claim completes. *)
Lemma C5_replicas_met_witness :
  exists st',
    result sampleDurationString
      (core.ClaimArgs.mk claimTen (Some poolA) (claimingSince100 10))
      (constClock (101 * time.Second)) = (st', true)
    /\ SandboxClaimStatus.Phase st' = SandboxClaimPhaseCompleted
    /\ SandboxClaimStatus.CompletionTime st' = Some (101 * time.Second)
    /\ findCondition (SandboxClaimStatus.Conditions st')
          SandboxClaimConditionCompleted
        = Some (metav1.Condition.mk SandboxClaimConditionCompleted
                  metav1.ConditionTrue 0 (101 * time.Second)
                  "AllReplicasClaimed"
                  "Successfully claimed all 10 sandboxes").
Proof.
  destruct (C5_replicas_met_threshold sampleDurationString
              (core.ClaimArgs.mk claimTen (Some poolA) (claimingSince100 10))
              (constClock (101 * time.Second)) poolA
              eq_refl eq_refl eq_refl)
    as (_ & _ & Hmet & _).
  apply Hmet. vm_compute. discriminate.
Defined.

(** Setting a condition of a type the list already has. *)
Lemma C6_setCondition_witness :
  core.setCondition (Some [condB; condA]) condA' = Some [condB; condA']
  /\ core.setCondition (Some [condB]) condA' = Some [condB; condA']
  /\ exists l', core.setCondition (Some [condB; condA]) condA' = Some l'
                /\ NoDup (conditionTypes l').
Proof.
  destruct (C6_setCondition [condB; condA] condA')
    as (_ & Hreplace & _ & Hnodup).
  destruct (C6_setCondition [condB] condA') as (_ & _ & Happend & _).
  split; [|split].
  - apply (Hreplace [condB] condA []); [reflexivity | | reflexivity].
    repeat constructor. discriminate.
  - apply Happend. repeat constructor. discriminate.
  - apply Hnodup. vm_compute.
    repeat constructor; rewrite ?list_elem_of_In; cbn; intuition discriminate.
Defined.

(** An update from an unset Replicas field to an explicit 1 is allowed. *)
Lemma C7_update_witness :
  let req := admission.Request.mk admission.Update "one" "unset" in
  @validating.Handle sampleDecoder req = admission.Allowed "".
Proof.
  cbn zeta.
  destruct (@C7_update_denied_iff_replicas_change sampleDecoder
              (admission.Request.mk admission.Update "one" "unset")
              claimDefault claimOne eq_refl eq_refl eq_refl)
    as (_ & Hsame & _).
  apply Hsame. reflexivity.
Defined.

(** A claimed running sandbox whose Ready condition is False is dead. *)
Lemma C8_classification_witness :
  fst (sandboxutils.computeSandboxState sampleGetSandboxCondition
         (claimedSandbox "17" false metav1.ConditionFalse) (constClock 0))
  = (sandboxapi.SandboxStateDead, "RunningResourceClaimedButNotReady").
Proof.
  destruct (C8_claimed_running_classification sampleGetSandboxCondition
              (claimedSandbox "17" false metav1.ConditionFalse) (constClock 0)
              eq_refl)
    as (_ & Hstate); [discriminate | reflexivity | reflexivity |].
  rewrite Hstate. reflexivity.
Defined.

(** A sandbox without resource version is classified without the cache. *)
Lemma C9_empty_resource_version_witness :
  fst (sandboxutils.GetSandboxState sampleGetSandboxCondition
         (claimedSandbox "" false metav1.ConditionTrue) sampleCache
         (constClock 0))
  = (sandboxapi.SandboxStateRunning, "RunningResourceClaimedAndReady",
     sampleCache).
Proof.
  destruct (C9_empty_resource_version_bypasses_cache
              sampleGetSandboxCondition
              (claimedSandbox "" false metav1.ConditionTrue) sampleCache
              (constClock 0) eq_refl) as (Hrun & _).
  rewrite Hrun. reflexivity.
Defined.

(** Deleting with an empty name keeps the entry of the sample cache. *)
Lemma C10_delete_empty_identity_witness :
  sandboxutils.DeleteSandboxCache "default" "" sampleCache = sampleCache.
Proof.
  apply (C10_delete_empty_identity_keeps_cache "default" "" sampleCache).
  right. reflexivity.
Defined.

(* ===================================================================== *)
(** * Further properties of the code *)
(* ===================================================================== *)

(** ** CalculateClaimStatus, all scenarios *)

Section MoreClaimStatus.

Variable DurationString : time.Duration -> string.

Local Abbreviation outcome := (result DurationString).

Implicit Types (args : core.ClaimArgs.t) (st : SandboxClaimStatus.t)
  (claim : SandboxClaim.t) (c : Clock).

Lemma setStatusCondition_completedAt st (now : time.Time)
    (reason message : string) :
  SandboxClaimStatus.Phase st = SandboxClaimPhaseCompleted ->
  SandboxClaimStatus.CompletionTime st = Some now ->
  forall st0,
    SandboxClaimStatus.ObservedGeneration st
      = SandboxClaimStatus.ObservedGeneration st0 ->
    SandboxClaimStatus.ClaimedReplicas st
      = SandboxClaimStatus.ClaimedReplicas st0 ->
    SandboxClaimStatus.ClaimStartTime st
      = SandboxClaimStatus.ClaimStartTime st0 ->
    (findCondition (SandboxClaimStatus.Conditions st)
       SandboxClaimConditionTimedOut
     = findCondition (SandboxClaimStatus.Conditions st0)
         SandboxClaimConditionTimedOut
     \/ exists m,
          findCondition (SandboxClaimStatus.Conditions st)
            SandboxClaimConditionTimedOut
          = Some (metav1.Condition.mk SandboxClaimConditionTimedOut
                    metav1.ConditionTrue 0 now "ClaimTimeoutReached" m)) ->
    (forall ty : string,
        ty <> SandboxClaimConditionCompleted ->
        ty <> SandboxClaimConditionTimedOut ->
        findCondition (SandboxClaimStatus.Conditions st) ty
        = findCondition (SandboxClaimStatus.Conditions st0) ty) ->
    completedAt now reason st0
      (core.setStatusCondition
         (metav1.Condition.mk SandboxClaimConditionCompleted
            metav1.ConditionTrue 0 now reason message) st).
Proof.
  intros Hp Hct st0 Hg Hr Hs Hto Hother.
  pose proof (setStatusCondition_fields
                (metav1.Condition.mk SandboxClaimConditionCompleted
                   metav1.ConditionTrue 0 now reason message) st) as Hf.
  cbn zeta in Hf. destruct Hf as (Hf1 & Hf2 & _ & Hf4 & Hf5 & Hf6).
  unfold completedAt.
  rewrite Hf1, Hf2, Hf4, Hf5, Hf6.
  repeat split; try assumption.
  - exists message.
    apply (setStatusCondition_find_same
             (metav1.Condition.mk SandboxClaimConditionCompleted
                metav1.ConditionTrue 0 now reason message) st).
  - rewrite setStatusCondition_find_other by discriminate. exact Hto.
  - intros ty H1 H2.
    rewrite setStatusCondition_find_other by (cbn; congruence).
    apply Hother; assumption.
Qed.

Lemma transitionToCompleted_completedAt st (reason message : string) c :
  completedAt (c 0%nat) reason st
    (fst (core.transitionToCompleted st reason message c)).
Proof.
  rewrite transitionToCompleted_run. cbn [fst].
  apply setStatusCondition_completedAt; try reflexivity.
  left. reflexivity.
Qed.

Lemma transitionToCompletedWithSuccess_completedAt st claim c :
  completedAt (c 0%nat) "AllReplicasClaimed" st
    (fst (core.transitionToCompletedWithSuccess st claim c)).
Proof.
  rewrite transitionToCompletedWithSuccess_run. cbn [fst].
  apply setStatusCondition_completedAt; try reflexivity.
  left. reflexivity.
Qed.

Lemma transitionToCompletedWithTimeout_completedAt st
    (elapsed : time.Duration) claim c :
  completedAt (c 0%nat) "TimeoutReached" st
    (fst (core.transitionToCompletedWithTimeout DurationString
            st elapsed claim c)).
Proof.
  rewrite transitionToCompletedWithTimeout_run. cbn [fst].
  match goal with
  | |- context [core.setStatusCondition ?cond1
                  (core.setStatusCondition ?cond2 ?s)] =>
      pose proof (setStatusCondition_fields cond2 s) as Hf;
      pose proof (setStatusCondition_find_same cond2 s) as Hsame;
      pose proof (fun ty => setStatusCondition_find_other cond2 s ty) as Hoth
  end.
  cbn zeta in Hf. destruct Hf as (Hf1 & Hf2 & _ & Hf4 & Hf5 & Hf6).
  apply setStatusCondition_completedAt.
  - rewrite Hf1. reflexivity.
  - rewrite Hf6. reflexivity.
  - rewrite Hf2. reflexivity.
  - rewrite Hf4. reflexivity.
  - rewrite Hf5. reflexivity.
  - right. eexists. exact Hsame.
  - intros ty H1 H2. rewrite Hoth by (cbn; congruence). reflexivity.
Qed.

(** The scenarios of CalculateClaimStatus, with what each returns. *)
Lemma calc_cases args c :
  let p := SandboxClaimStatus.Phase (core.ClaimArgs.NewStatus args) in
  (p = ""
   /\ outcome args c
      = (SandboxClaimStatus.set_ClaimStartTime (Some (c 0%nat))
           (SandboxClaimStatus.set_Phase SandboxClaimPhaseClaiming
              (observed args)), false))
  \/ (p <> "" /\ outcome args c = (observed args, false))
  \/ (p <> "" /\ p <> SandboxClaimPhaseCompleted
      /\ exists now reason st',
           outcome args c = (st', true)
           /\ completedAt now reason (observed args) st').
Proof.
  intros p. subst p.
  destruct (String.eqb_spec
              (SandboxClaimStatus.Phase (core.ClaimArgs.NewStatus args)) "")
    as [H1|H1].
  { left. split; [exact H1|]. unfold result.
    rewrite calc_initial by exact H1. reflexivity. }
  right.
  destruct (String.eqb_spec
              (SandboxClaimStatus.Phase (core.ClaimArgs.NewStatus args))
              SandboxClaimPhaseCompleted) as [H2|H2].
  { left. split; [exact H1|]. unfold result.
    rewrite calc_completed by exact H2. reflexivity. }
  unfold result. rewrite calc_running by assumption.
  destruct (core.ClaimArgs.SandboxSet args) as [sbs|].
  - cbn zeta. destruct (fst (core.isClaimTimeout _ _ c)).
    + destruct (SandboxClaimStatus.ClaimStartTime _) as [start|].
      * right. split; [exact H1|]. split; [exact H2|].
        do 3 eexists. split; [reflexivity|].
        apply transitionToCompletedWithTimeout_completedAt.
      * left. split; [exact H1 | reflexivity].
    + destruct (core.isReplicasMet _ _).
      * right. split; [exact H1|]. split; [exact H2|].
        do 3 eexists. split; [reflexivity|].
        apply transitionToCompletedWithSuccess_completedAt.
      * left. split; [exact H1 | reflexivity].
  - right. split; [exact H1|]. split; [exact H2|].
    do 3 eexists. split; [reflexivity|].
    apply transitionToCompleted_completedAt.
Qed.

(** Shared by the statements below: which fields a call may change. *)
Lemma calc_frame args c :
  let st := core.ClaimArgs.NewStatus args in
  let st' := fst (outcome args c) in
  SandboxClaimStatus.ObservedGeneration st'
    = SandboxClaim.Generation (core.ClaimArgs.Claim args)
  /\ SandboxClaimStatus.ClaimedReplicas st'
     = SandboxClaimStatus.ClaimedReplicas st
  /\ (SandboxClaimStatus.Phase st <> "" ->
      SandboxClaimStatus.ClaimStartTime st'
      = SandboxClaimStatus.ClaimStartTime st
      /\ SandboxClaimStatus.Phase st' <> "")
  /\ (snd (outcome args c) = false ->
      SandboxClaimStatus.CompletionTime st'
      = SandboxClaimStatus.CompletionTime st
      /\ SandboxClaimStatus.Message st' = SandboxClaimStatus.Message st
      /\ SandboxClaimStatus.Conditions st'
         = SandboxClaimStatus.Conditions st).
Proof.
  intros st st'. subst st st'.
  destruct (calc_cases args c)
    as [(Hp & ->) | [(Hp & ->) | (Hp & Hp' & now & reason & st' & -> & Hc)]];
    cbn [fst snd].
  - repeat split; intros; try contradiction; reflexivity.
  - repeat split; try assumption; reflexivity.
  - destruct Hc as (Hph & Hg & Hr & Hs & _).
    rewrite Hg, Hr, Hs, Hph. repeat split; try discriminate; reflexivity.
Qed.

(** X1. Every call sets the observed generation of the status it returns to
    the generation of the claim, whatever the phase and the scenario. *)
Theorem X1_observed_generation_always_updated args c :
  SandboxClaimStatus.ObservedGeneration (fst (result DurationString args c))
  = SandboxClaim.Generation (core.ClaimArgs.Claim args).
Proof. apply (calc_frame args c). Qed.

(** X2. skipBusinessLogic is raised only together with a transition to
    Completed: when it is true, the status that came in was neither new nor
    completed, and the status returned has phase Completed, a completion
    time, and a Completed condition with status True stamped with that
    time. *)
Theorem X2_skip_only_with_completion args c :
  snd (outcome args c) = true ->
  SandboxClaimStatus.Phase (core.ClaimArgs.NewStatus args) <> ""
  /\ SandboxClaimStatus.Phase (core.ClaimArgs.NewStatus args)
     <> SandboxClaimPhaseCompleted
  /\ SandboxClaimStatus.Phase (fst (outcome args c))
     = SandboxClaimPhaseCompleted
  /\ exists (now : time.Time) (reason message : string),
       SandboxClaimStatus.CompletionTime (fst (outcome args c)) = Some now
       /\ findCondition
            (SandboxClaimStatus.Conditions (fst (outcome args c)))
            SandboxClaimConditionCompleted
          = Some (metav1.Condition.mk SandboxClaimConditionCompleted
                    metav1.ConditionTrue 0 now reason message).
Proof.
  destruct (calc_cases args c)
    as [(Hp & ->) | [(Hp & ->) | (Hp & Hp' & now & reason & st' & -> & Hc)]];
    cbn [fst snd]; try discriminate.
  intros _. destruct Hc as (Hph & _ & _ & _ & Hct & (message & Hcond) & _).
  repeat split; try assumption. exists now, reason, message. split; assumption.
Qed.

(** X3. A call never changes the claimed replica count; it changes the claim
    start time only for a status whose phase is unset; and when it returns
    skipBusinessLogic = false it leaves the completion time, the message and
    the conditions as they were. *)
Theorem X3_fields_left_alone args c :
  SandboxClaimStatus.ClaimedReplicas (fst (result DurationString args c))
  = SandboxClaimStatus.ClaimedReplicas (core.ClaimArgs.NewStatus args)
  /\ (SandboxClaimStatus.Phase (core.ClaimArgs.NewStatus args) <> "" ->
      SandboxClaimStatus.ClaimStartTime (fst (result DurationString args c))
      = SandboxClaimStatus.ClaimStartTime (core.ClaimArgs.NewStatus args))
  /\ (snd (result DurationString args c) = false ->
      SandboxClaimStatus.CompletionTime (fst (result DurationString args c))
      = SandboxClaimStatus.CompletionTime (core.ClaimArgs.NewStatus args)
      /\ SandboxClaimStatus.Message (fst (result DurationString args c))
         = SandboxClaimStatus.Message (core.ClaimArgs.NewStatus args)
      /\ SandboxClaimStatus.Conditions (fst (result DurationString args c))
         = SandboxClaimStatus.Conditions (core.ClaimArgs.NewStatus args)).
Proof.
  destruct (calc_frame args c) as (_ & Hr & Hs & Hk).
  split; [exact Hr|]. split; [|exact Hk].
  intros Hp. apply Hs. exact Hp.
Qed.

(** X4. A call never drops a condition: a type that has an entry before the
    call has one after it, and the first entry of every type other than
    Completed and TimedOut is the same before and after. *)
Theorem X4_conditions_never_dropped args c (ty : string) :
  (findCondition
     (SandboxClaimStatus.Conditions (core.ClaimArgs.NewStatus args)) ty
   <> None ->
   findCondition (SandboxClaimStatus.Conditions (fst (outcome args c))) ty
   <> None)
  /\ (ty <> SandboxClaimConditionCompleted ->
      ty <> SandboxClaimConditionTimedOut ->
      findCondition (SandboxClaimStatus.Conditions (fst (outcome args c))) ty
      = findCondition
          (SandboxClaimStatus.Conditions (core.ClaimArgs.NewStatus args)) ty).
Proof.
  destruct (calc_cases args c)
    as [(Hp & ->) | [(Hp & ->) | (Hp & Hp' & now & reason & st' & -> & Hc)]];
    cbn [fst snd]; try (split; intros; [assumption | reflexivity]).
  destruct Hc as (_ & _ & _ & _ & _ & (message & Hcond) & Hto & Hother).
  split.
  - intros Hin.
    destruct (String.eqb_spec ty SandboxClaimConditionCompleted) as [->|H1].
    { rewrite Hcond. discriminate. }
    destruct (String.eqb_spec ty SandboxClaimConditionTimedOut) as [->|H2].
    { destruct Hto as [-> | (m & ->)]; [exact Hin | discriminate]. }
    rewrite (Hother ty H1 H2). exact Hin.
  - intros H1 H2. apply Hother; assumption.
Qed.

(** X5. The timeout transition, which comes before the replica check: for a
    claim that is neither new nor completed, with its pool present, a
    timeout configured and a start time such that the elapsed time has
    reached the timeout, the call returns skipBusinessLogic = true and a
    Completed status, whether or not the replicas are met.  The elapsed time
    of the messages is measured by a second reading of the clock and the
    timestamps come from a third one; both a TimedOut condition (reason
    ClaimTimeoutReached) and a Completed condition (reason TimeoutReached)
    are set. *)
Theorem X5_timeout_transition args c (sbs : SandboxSet.t)
    (timeout : time.Duration) (start : time.Time) :
  SandboxClaimStatus.Phase (core.ClaimArgs.NewStatus args) <> "" ->
  SandboxClaimStatus.Phase (core.ClaimArgs.NewStatus args)
    <> SandboxClaimPhaseCompleted ->
  core.ClaimArgs.SandboxSet args = Some sbs ->
  SandboxClaimSpec.ClaimTimeout
    (SandboxClaim.Spec (core.ClaimArgs.Claim args)) = Some timeout ->
  SandboxClaimStatus.ClaimStartTime (core.ClaimArgs.NewStatus args)
    = Some start ->
  timeout <= time.Sub (c 0%nat) start ->
  let elapsed := DurationString (time.Sub (c 1%nat) start) in
  let claimed :=
    fmt.d (SandboxClaimStatus.ClaimedReplicas
             (core.ClaimArgs.NewStatus args)) in
  let desired := fmt.d (core.getDesiredReplicas (core.ClaimArgs.Claim args)) in
  let message :=
    "Timeout reached after " ++ elapsed ++ ", claimed " ++ claimed ++ "/"
      ++ desired ++ " sandboxes" in
  exists st',
    outcome args c = (st', true)
    /\ SandboxClaimStatus.Phase st' = SandboxClaimPhaseCompleted
    /\ SandboxClaimStatus.CompletionTime st' = Some (c 2%nat)
    /\ SandboxClaimStatus.Message st' = message
    /\ findCondition (SandboxClaimStatus.Conditions st')
          SandboxClaimConditionTimedOut
        = Some (metav1.Condition.mk SandboxClaimConditionTimedOut
                  metav1.ConditionTrue 0 (c 2%nat) "ClaimTimeoutReached"
                  ("Timeout after " ++ elapsed ++ ", claimed " ++ claimed
                     ++ "/" ++ desired))
    /\ findCondition (SandboxClaimStatus.Conditions st')
          SandboxClaimConditionCompleted
        = Some (metav1.Condition.mk SandboxClaimConditionCompleted
                  metav1.ConditionTrue 0 (c 2%nat) "TimeoutReached" message).
Proof.
  intros H1 H2 Hs Ht Hst Hle elapsed claimed desired message.
  unfold result. rewrite calc_running by assumption.
  rewrite Hs. cbn zeta.
  rewrite (isClaimTimeout_set _ _ c _ _ Ht Hst).
  apply Z.leb_le in Hle. rewrite Hle. cbn [fst snd]. rewrite Hst.
  rewrite transitionToCompletedWithTimeout_run. cbn [fst].
  eexists. split; [reflexivity|].
  match goal with
  | |- context [core.setStatusCondition ?cond1
                  (core.setStatusCondition ?cond2 ?s)] =>
      pose proof (setStatusCondition_fields cond2 s) as Hf2;
      pose proof (setStatusCondition_find_same cond2 s) as Hsame2;
      pose proof (setStatusCondition_fields cond1
                    (core.setStatusCondition cond2 s)) as Hf1;
      pose proof (setStatusCondition_find_same cond1
                    (core.setStatusCondition cond2 s)) as Hsame1;
      pose proof (setStatusCondition_find_other cond1
                    (core.setStatusCondition cond2 s)
                    SandboxClaimConditionTimedOut) as Hoth1
  end.
  cbn zeta in Hf1, Hf2.
  destruct Hf1 as (Hp1 & _ & Hm1 & _ & _ & Hc1).
  destruct Hf2 as (Hp2 & _ & Hm2 & _ & _ & Hc2).
  rewrite Hp1, Hp2, Hc1, Hc2, Hm1, Hm2.
  split; [reflexivity|]. split; [reflexivity|]. split; [reflexivity|].
  split.
  - rewrite Hoth1 by discriminate. exact Hsame2.
  - exact Hsame1.
Qed.

(** From a status whose phase is set, the start time never changes again. *)
Lemma successive_start_kept (passes : list Pass) : forall st,
  SandboxClaimStatus.Phase st <> "" ->
  Forall (fun s => SandboxClaimStatus.ClaimStartTime s
                   = SandboxClaimStatus.ClaimStartTime st)
         (successive DurationString passes st).
Proof.
  induction passes as [|p passes IH]; intros st Hp; cbn [successive].
  - constructor.
  - destruct (calc_frame
                (core.ClaimArgs.mk (pass_Claim p) (pass_SandboxSet p) st)
                (pass_clock p)) as (_ & _ & Hs & _).
    cbn [core.ClaimArgs.NewStatus] in Hs.
    destruct (Hs Hp) as (Hstart & Hp').
    constructor; [exact Hstart|].
    eapply Forall_impl; [apply (IH _ Hp')|].
    cbn beta. intros s Hs'. rewrite Hs'. exact Hstart.
Qed.

(** X6. The claim start time is written once: over successive applications
    that begin with a new claim (phase unset), every status returned carries
    the start time that the first application took from its clock, whatever
    the later applications are given. *)
Theorem X6_start_time_set_once (p : Pass) (passes : list Pass) st :
  SandboxClaimStatus.Phase st = "" ->
  Forall (fun s => SandboxClaimStatus.ClaimStartTime s
                   = Some (pass_clock p 0%nat))
         (successive DurationString (p :: passes) st).
Proof.
  intros Hp. cbn [successive]. unfold result at 1 2.
  rewrite calc_initial by exact Hp. cbn [fst].
  constructor; [reflexivity|].
  eapply Forall_impl; [apply successive_start_kept; discriminate|].
  cbn beta. intros s Hs. exact Hs.
Qed.

(** X7. A completed status is frozen: over successive applications that
    begin with a status in phase Completed, every status returned is that
    status with nothing but the observed generation changed, and
    skipBusinessLogic is false each time. *)
Theorem X7_completed_status_frozen (passes : list Pass) st :
  SandboxClaimStatus.Phase st = SandboxClaimPhaseCompleted ->
  Forall (fun s => s = SandboxClaimStatus.set_ObservedGeneration
                         (SandboxClaimStatus.ObservedGeneration s) st)
         (successive DurationString passes st)
  /\ forall claim (sbs : option SandboxSet.t) c,
       snd (outcome (core.ClaimArgs.mk claim sbs st) c) = false.
Proof.
  intros Hp. split.
  - assert (Hgen : forall (g : Z) st0,
               SandboxClaimStatus.Phase st0 = SandboxClaimPhaseCompleted ->
               Forall (fun s => s = SandboxClaimStatus.set_ObservedGeneration
                                      (SandboxClaimStatus.ObservedGeneration s)
                                      st0)
                 (successive DurationString passes
                    (SandboxClaimStatus.set_ObservedGeneration g st0))).
    { induction passes as [|p passes IH]; intros g st0 Hp0; cbn [successive].
      - constructor.
      - unfold result at 1 2. rewrite calc_completed by exact Hp0.
        cbn [fst]. constructor; [reflexivity|].
        apply (IH _ st0 Hp0). }
    destruct st as [g ph m r s ct cs].
    apply (Hgen g (SandboxClaimStatus.mk g ph m r s ct cs) Hp).
  - intros claim sbs c. unfold result.
    rewrite calc_completed by exact Hp. reflexivity.
Qed.

End MoreClaimStatus.

(** ** The timeout check *)

Lemma Sub_monotone (t1 t2 u : time.Time) :
  t1 <= t2 -> time.Sub t1 u <= time.Sub t2 u.
Proof.
  intros Hle. unfold time.Sub, time.minDuration, time.maxDuration.
  repeat case_match; lia.
Qed.

Lemma Sub_exact (t u : time.Time) :
  time.minDuration <= t - u <= time.maxDuration -> time.Sub t u = t - u.
Proof.
  unfold time.Sub. intros [Hlo Hhi].
  repeat case_match; lia.
Qed.

(** X8. isClaimTimeout answers true exactly when the claim has a timeout,
    the status has a start time, and the timeout is at most the (saturated)
    time elapsed since the start; when the exact difference fits a
    Duration that is: start + timeout <= now, the instant start + timeout
    included. *)
Theorem X8_timeout_threshold (claim : SandboxClaim.t)
    (st : SandboxClaimStatus.t) (c : Clock) :
  (fst (core.isClaimTimeout claim st c) = true <->
     exists (timeout : time.Duration) (start : time.Time),
       SandboxClaimSpec.ClaimTimeout (SandboxClaim.Spec claim) = Some timeout
       /\ SandboxClaimStatus.ClaimStartTime st = Some start
       /\ timeout <= time.Sub (c 0%nat) start)
  /\ (forall (timeout : time.Duration) (start : time.Time),
        SandboxClaimSpec.ClaimTimeout (SandboxClaim.Spec claim)
          = Some timeout ->
        SandboxClaimStatus.ClaimStartTime st = Some start ->
        time.minDuration <= c 0%nat - start <= time.maxDuration ->
        (fst (core.isClaimTimeout claim st c) = true
           <-> start + timeout <= c 0%nat)).
Proof.
  split.
  - unfold core.isClaimTimeout.
    destruct (SandboxClaimSpec.ClaimTimeout (SandboxClaim.Spec claim))
      as [timeout|].
    + destruct (SandboxClaimStatus.ClaimStartTime st) as [start|].
      * rewrite run_bind, run_Since. cbn [fst snd ret].
        rewrite Z.leb_le. split.
        -- intros Hle. exists timeout, start. repeat split. exact Hle.
        -- intros (t & s0 & [= <-] & [= <-] & Hle). exact Hle.
      * cbn. split; [discriminate | intros (t & s0 & _ & [=] & _)].
    + cbn. split; [discriminate | intros (t & s0 & [=] & _)].
  - intros timeout start Ht Hs Hrange.
    rewrite (isClaimTimeout_set _ _ c _ _ Ht Hs). cbn [fst].
    rewrite Z.leb_le, (Sub_exact _ _ Hrange). lia.
Qed.

(** X9. A timeout that has been reached stays reached: if the check answers
    true at one clock reading it answers true at every later reading, for
    the same claim and status. *)
Theorem X9_timeout_stays_reached (claim : SandboxClaim.t)
    (st : SandboxClaimStatus.t) (c1 c2 : Clock) :
  c1 0%nat <= c2 0%nat ->
  fst (core.isClaimTimeout claim st c1) = true ->
  fst (core.isClaimTimeout claim st c2) = true.
Proof.
  intros Hle. unfold core.isClaimTimeout.
  destruct (SandboxClaimSpec.ClaimTimeout (SandboxClaim.Spec claim))
    as [timeout|]; [|discriminate].
  destruct (SandboxClaimStatus.ClaimStartTime st) as [start|]; [|discriminate].
  rewrite !run_bind, !run_Since. cbn [fst snd ret].
  rewrite !Z.leb_le. intros H.
  pose proof (Sub_monotone _ _ start Hle). lia.
Qed.

(** ** setCondition *)

(** X10. Setting the same condition twice is the same as setting it once. *)
Theorem X10_setCondition_idempotent (l l' : list metav1.Condition.t)
    (c : metav1.Condition.t) :
  core.setCondition (Some l) c = Some l' ->
  core.setCondition (Some l') c = Some l'.
Proof.
  revert l'. induction l as [|x l IH]; intros l'.
  - rewrite setCondition_nil. intros [= <-].
    rewrite setCondition_cons, String.eqb_refl. reflexivity.
  - rewrite setCondition_cons.
    destruct (String.eqb (metav1.Condition.Type_ x)
                         (metav1.Condition.Type_ c)) eqn:E.
    + intros [= <-]. rewrite setCondition_cons, String.eqb_refl. reflexivity.
    + destruct (core.setCondition (Some l) c) as [l0|] eqn:E0; [|discriminate].
      change (cons x <$> Some l0) with (Some (x :: l0)).
      intros [= <-]. rewrite setCondition_cons, E.
      rewrite (IH l0 eq_refl). reflexivity.
Qed.

(** X11. After setCondition the first entry of the new condition's type is
    the new condition, the first entry of every other type is the one it
    was, and the list has grown by at most one entry: by one exactly when
    no entry had the type. *)
Theorem X11_setCondition_lookup (l l' : list metav1.Condition.t)
    (c : metav1.Condition.t) :
  core.setCondition (Some l) c = Some l' ->
  findCondition l' (metav1.Condition.Type_ c) = Some c
  /\ (forall ty : string,
        ty <> metav1.Condition.Type_ c ->
        findCondition l' ty = findCondition l ty)
  /\ length l'
     = match findCondition l (metav1.Condition.Type_ c) with
       | Some _ => length l
       | None => S (length l)
       end.
Proof.
  intros Hset. split; [|split].
  - eapply findCondition_setCondition_same, Hset.
  - intros ty Hty. eapply findCondition_setCondition_other; [|exact Hset].
    congruence.
  - revert l' Hset. induction l as [|x l IH]; intros l'.
    + rewrite setCondition_nil. intros [= <-]. reflexivity.
    + rewrite setCondition_cons. cbn [findCondition].
      destruct (String.eqb (metav1.Condition.Type_ x)
                           (metav1.Condition.Type_ c)).
      * intros [= <-]. reflexivity.
      * destruct (core.setCondition (Some l) c) as [l0|] eqn:E0;
          [|discriminate].
        change (cons x <$> Some l0) with (Some (x :: l0)).
        intros [= <-]. cbn [length]. rewrite (IH l0 eq_refl).
        destruct (findCondition l _); reflexivity.
Qed.

(** ** Sandbox state classification *)

Section MoreClassification.

Import sandboxapi.

Variable GetSandboxCondition :
  SandboxStatus.t -> string -> option metav1.Condition.t.

Local Abbreviation IsSandboxReady :=
  (sandboxutils.IsSandboxReady GetSandboxCondition).
Local Abbreviation computeSandboxState :=
  (sandboxutils.computeSandboxState GetSandboxCondition).
Local Abbreviation computeSandboxState_phase :=
  (sandboxutils.computeSandboxState_phase GetSandboxCondition).
Local Abbreviation GetSandboxState :=
  (sandboxutils.GetSandboxState GetSandboxCondition).

Lemma computeSandboxState_phase_known (sbx : Sandbox.t) :
  knownState (fst (computeSandboxState_phase sbx))
  /\ snd (computeSandboxState_phase sbx) <> "ShutdownTimeReached"
  /\ snd (computeSandboxState_phase sbx) <> "ResourceDeleted".
Proof.
  unfold sandboxutils.computeSandboxState_phase, knownState.
  repeat match goal with
         | |- context [if ?b then _ else _] => destruct b
         end;
    cbn [fst snd]; (split; [tauto | split; discriminate]).
Qed.

(** X12. The shutdown time is compared strictly: a sandbox that is not
    being deleted and has a shutdown time is Dead with reason
    ShutdownTimeReached exactly when the clock is past that time; at the
    very instant of the shutdown time, and before it, the sandbox is
    classified by its phase, owner and readiness instead. *)
Theorem X12_shutdown_time_strict (sbx : Sandbox.t) (c : Clock)
    (shutdown : time.Time) :
  Sandbox.DeletionTimestamp sbx = None ->
  SandboxSpec.ShutdownTime (Sandbox.Spec sbx) = Some shutdown ->
  (shutdown < c 0%nat ->
     fst (computeSandboxState sbx c)
     = (SandboxStateDead, "ShutdownTimeReached"))
  /\ (c 0%nat <= shutdown ->
       fst (computeSandboxState sbx c) = computeSandboxState_phase sbx)
  /\ (fst (computeSandboxState sbx c)
       = (SandboxStateDead, "ShutdownTimeReached")
       <-> shutdown < c 0%nat).
Proof.
  intros Hd Hs.
  assert (Hrun : fst (computeSandboxState sbx c)
                 = if 0 <? time.Sub (c 0%nat) shutdown
                   then (SandboxStateDead, "ShutdownTimeReached")
                   else computeSandboxState_phase sbx).
  { unfold sandboxutils.computeSandboxState. rewrite Hd, Hs.
    rewrite run_bind, run_Since. cbn [fst snd].
    destruct (0 <? time.Sub (c 0%nat) shutdown); reflexivity. }
  rewrite Hrun.
  destruct (Z.ltb_spec 0 (time.Sub (c 0%nat) shutdown)) as [Hpos|Hle].
  - apply (proj1 (Sub_pos_iff _ _)) in Hpos.
    split; [reflexivity|]. split; [lia|]. split; [intros _; exact Hpos | reflexivity].
  - assert (Hnot : ~ shutdown < c 0%nat).
    { intros Hlt. apply (proj2 (Sub_pos_iff _ _)) in Hlt. lia. }
    split; [intros; contradiction|]. split; [reflexivity|].
    split; [|intros; contradiction].
    intros Heq. destruct (computeSandboxState_phase_known sbx) as (_ & Hr & _).
    rewrite Heq in Hr. contradiction.
Qed.

(** X13. A sandbox controlled by a SandboxSet that is alive (not being
    deleted, shutdown time not passed) and whose phase is none of Pending,
    Succeeded, Failed and Terminating is Available when ready and Creating
    otherwise; its pause flag and a Running phase play no part. *)
Theorem X13_pool_owned_classification (sbx : Sandbox.t) (c : Clock) :
  Sandbox.DeletionTimestamp sbx = None ->
  (forall t, SandboxSpec.ShutdownTime (Sandbox.Spec sbx) = Some t ->
             c 0%nat <= t) ->
  sandboxutils.IsControlledBySandboxCR sbx = true ->
  SandboxStatus.Phase (Sandbox.Status sbx) <> SandboxPending ->
  SandboxStatus.Phase (Sandbox.Status sbx) <> SandboxSucceeded ->
  SandboxStatus.Phase (Sandbox.Status sbx) <> SandboxFailed ->
  SandboxStatus.Phase (Sandbox.Status sbx) <> SandboxTerminating ->
  fst (computeSandboxState sbx c)
  = if IsSandboxReady sbx
    then (SandboxStateAvailable, "ResourceControlledBySbsAndReady")
    else (SandboxStateCreating, "ResourceControlledBySbsButNotReady").
Proof.
  intros Hd Hs Ho H1 H2 H3 H4.
  rewrite computeSandboxState_alive by assumption.
  unfold sandboxutils.computeSandboxState_phase.
  apply String.eqb_neq in H1, H2, H3, H4.
  rewrite H1, H2, H3, H4, Ho. reflexivity.
Qed.

(** X14. Ownership is read from the first owner reference that is marked as
    controller, and from it alone: the sandbox counts as controlled by a
    SandboxSet exactly when that reference has kind SandboxSet and the
    API version of the group; references after it are not looked at, and a
    sandbox without a controller reference is not controlled. *)
Theorem X14_first_controller_decides (sbx : Sandbox.t)
    (before after : list metav1.OwnerReference.t)
    (r : metav1.OwnerReference.t) :
  (Sandbox.OwnerReferences sbx = (before ++ r :: after)%list ->
   Forall (fun x => metav1.OwnerReference.Controller x <> Some true) before ->
   metav1.OwnerReference.Controller r = Some true ->
   sandboxutils.IsControlledBySandboxCR sbx
   = String.eqb (metav1.OwnerReference.Kind r) SandboxSetControllerKind_Kind
     && String.eqb (metav1.OwnerReference.APIVersion r)
                   SandboxSetControllerKind_GroupVersion)
  /\ (Forall (fun x => metav1.OwnerReference.Controller x <> Some true)
        (Sandbox.OwnerReferences sbx) ->
      sandboxutils.IsControlledBySandboxCR sbx = false).
Proof.
  assert (Hskip : forall pre rest,
             Forall (fun x => metav1.OwnerReference.Controller x <> Some true)
               pre ->
             metav1.GetControllerOfNoCopy (pre ++ rest)%list
             = metav1.GetControllerOfNoCopy rest).
  { intros pre rest Hpre. induction Hpre as [|x pre Hx _ IH]; [reflexivity|].
    cbn. destruct (metav1.OwnerReference.Controller x) as [[|]|];
      [contradiction | exact IH | exact IH]. }
  split.
  - intros Hrefs Hbefore Hr. unfold sandboxutils.IsControlledBySandboxCR.
    rewrite Hrefs, (Hskip _ _ Hbefore). cbn. rewrite Hr. reflexivity.
  - intros Hall. unfold sandboxutils.IsControlledBySandboxCR.
    rewrite <- (app_nil_r (Sandbox.OwnerReferences sbx)).
    rewrite (Hskip _ [] Hall). reflexivity.
Qed.

(** X15. A sandbox that is alive, not controlled by a SandboxSet, and whose
    phase is none of Pending, Succeeded, Failed, Terminating and Running,
    the unset phase included, is Paused with reason
    NotRunningResourceClaimed, whatever its readiness and pause flag. *)
Theorem X15_claimed_not_running_is_paused (sbx : Sandbox.t) (c : Clock) :
  Sandbox.DeletionTimestamp sbx = None ->
  (forall t, SandboxSpec.ShutdownTime (Sandbox.Spec sbx) = Some t ->
             c 0%nat <= t) ->
  sandboxutils.IsControlledBySandboxCR sbx = false ->
  SandboxStatus.Phase (Sandbox.Status sbx) <> SandboxPending ->
  SandboxStatus.Phase (Sandbox.Status sbx) <> SandboxSucceeded ->
  SandboxStatus.Phase (Sandbox.Status sbx) <> SandboxFailed ->
  SandboxStatus.Phase (Sandbox.Status sbx) <> SandboxTerminating ->
  SandboxStatus.Phase (Sandbox.Status sbx) <> SandboxRunning ->
  fst (computeSandboxState sbx c)
  = (SandboxStatePaused, "NotRunningResourceClaimed").
Proof.
  intros Hd Hs Ho H1 H2 H3 H4 H5.
  rewrite computeSandboxState_alive by assumption.
  unfold sandboxutils.computeSandboxState_phase.
  apply String.eqb_neq in H1, H2, H3, H4, H5.
  rewrite H1, H2, H3, H4, H5, Ho. reflexivity.
Qed.

(** X16. Whatever the sandbox and the clock, the state computed is one of
    creating, available, running, paused and dead, and a sandbox with a
    deletion timestamp is dead with reason ResourceDeleted, which no other
    sandbox gets. *)
Theorem X16_state_range (sbx : Sandbox.t) (c : Clock) :
  knownState (fst (fst (computeSandboxState sbx c)))
  /\ (fst (computeSandboxState sbx c) = (SandboxStateDead, "ResourceDeleted")
      <-> Sandbox.DeletionTimestamp sbx <> None).
Proof.
  destruct (computeSandboxState_phase_known sbx) as (Hk & _ & Hr).
  unfold sandboxutils.computeSandboxState.
  destruct (Sandbox.DeletionTimestamp sbx) as [t|].
  - cbn. split; [unfold knownState; tauto|]. split; [discriminate | reflexivity].
  - assert (Hne : computeSandboxState_phase sbx
                  <> (SandboxStateDead, "ResourceDeleted")).
    { intros Heq. rewrite Heq in Hr. contradiction. }
    destruct (SandboxSpec.ShutdownTime (Sandbox.Spec sbx)) as [t|].
    + rewrite run_bind, run_Since. cbn [fst snd].
      destruct (0 <? time.Sub (c 0%nat) t); cbn [fst snd ret].
      * split; [unfold knownState; tauto|].
        split; [discriminate | intros H; contradiction].
      * split; [exact Hk|]. split; [intros H; contradiction | intros H; contradiction].
    + cbn [fst snd ret]. split; [exact Hk|].
      split; [intros H; contradiction | intros H; contradiction].
Qed.

End MoreClassification.

(** ** The state cache *)


Lemma prefix_cons_same (ch : ascii) (a b : string) :
  String.prefix (String ch a) (String ch b) = String.prefix a b.
Proof. simpl. destruct (ascii_dec ch ch); [reflexivity | contradiction]. Qed.


Lemma prefix_cons (ch ch' : ascii) (a b : string) :
  String.prefix (String ch a) (String ch' b)
  = if ascii_dec ch ch' then String.prefix a b else false.
Proof. reflexivity. Qed.

Lemma prefix_segment (a b x y : string) :
  noSlash a = true -> noSlash b = true ->
  String.prefix (a ++ String "/" x) (b ++ String "/" y) = true ->
  a = b /\ String.prefix x y = true.
Proof.
  revert b. induction a as [|ch a IH]; intros [|ch' b] Ha Hb.
  - change (String.prefix (String "/" x) (String "/" y) = true ->
            "" = "" /\ String.prefix x y = true).
    rewrite prefix_cons_same. auto.
  - change (String.prefix (String "/" x) (String ch' (b ++ String "/" y))
            = true -> "" = String ch' b /\ String.prefix x y = true).
    rewrite prefix_cons. destruct (ascii_dec "/" ch') as [<-|]; [|discriminate].
    change (noSlash (String "/" b)) with (false && noSlash b) in Hb.
    discriminate.
  - change (String.prefix (String ch (a ++ String "/" x)) (String "/" y)
            = true -> String ch a = "" /\ String.prefix x y = true).
    rewrite prefix_cons. destruct (ascii_dec ch "/") as [->|]; [|discriminate].
    change (noSlash (String "/" a)) with (false && noSlash a) in Ha.
    discriminate.
  - change (String.prefix (String ch (a ++ String "/" x))
              (String ch' (b ++ String "/" y)) = true ->
            String ch a = String ch' b /\ String.prefix x y = true).
    rewrite prefix_cons. destruct (ascii_dec ch ch') as [<-|]; [|discriminate].
    change (noSlash (String ch a))
      with (negb (Ascii.eqb ch "/") && noSlash a) in Ha.
    change (noSlash (String ch b))
      with (negb (Ascii.eqb ch "/") && noSlash b) in Hb.
    apply andb_true_iff in Ha as [_ Ha].
    apply andb_true_iff in Hb as [_ Hb].
    intros H. destruct (IH b Ha Hb H) as [-> Hp]. auto.
Qed.

Section MoreCache.

Import sandboxapi.

Variable GetSandboxCondition :
  SandboxStatus.t -> string -> option metav1.Condition.t.

Local Abbreviation computeSandboxState :=
  (sandboxutils.computeSandboxState GetSandboxCondition).
Local Abbreviation GetSandboxState :=
  (sandboxutils.GetSandboxState GetSandboxCondition).

(** The entry that a call stores on a miss. *)
Local Abbreviation entryOf sbx c :=
  (sandboxutils.anyEntry
     (sandboxutils.sandboxStateCacheEntry.mk
        (fst (fst (computeSandboxState sbx c)))
        (snd (fst (computeSandboxState sbx c))))).

(** GetSandboxState for a sandbox with a resource version, by what the cache
    holds under the key of the sandbox. *)
Lemma GetSandboxState_versioned (sbx : Sandbox.t)
    (cache : gmap string sandboxutils.any) (c : Clock) :
  Sandbox.ResourceVersion sbx <> "" ->
  GetSandboxState sbx cache c
  = match cache !! cacheKey sbx with
    | Some (sandboxutils.anyEntry e) =>
        (sandboxutils.sandboxStateCacheEntry.state e,
         sandboxutils.sandboxStateCacheEntry.reason e, cache, c)
    | Some (sandboxutils.anyOther _) =>
        (fst (computeSandboxState sbx c), cache,
         snd (computeSandboxState sbx c))
    | None =>
        (fst (computeSandboxState sbx c),
         <[cacheKey sbx := entryOf sbx c]> cache,
         snd (computeSandboxState sbx c))
    end.
Proof.
  intros Hrv. apply String.eqb_neq in Hrv.
  unfold sandboxutils.GetSandboxState. rewrite Hrv.
  fold (cacheKey sbx).
  destruct (cache !! cacheKey sbx) as [[e|tag]|] eqn:Hl.
  - reflexivity.
  - rewrite run_bind. reflexivity.
  - rewrite run_bind. unfold sandboxutils.LoadOrStore. rewrite Hl.
    destruct (computeSandboxState sbx c) as [[state reason] c']. reflexivity.
Qed.


(** X18. A call never removes or overwrites a cache entry, and touches no
    key but that of its sandbox: every entry present before the call is
    present unchanged after it, and every other key looks up as before. *)
Theorem X18_cache_only_grows (sbx : Sandbox.t)
    (cache : gmap string sandboxutils.any) (c : Clock) :
  let cache' := snd (fst (GetSandboxState sbx cache c)) in
  cache ⊆ cache'
  /\ (forall key, key <> cacheKey sbx -> cache' !! key = cache !! key).
Proof.
  intros cache'. subst cache'.
  destruct (String.eqb_spec (Sandbox.ResourceVersion sbx) "") as [Hrv|Hrv].
  - unfold sandboxutils.GetSandboxState. rewrite Hrv. cbn [String.eqb].
    rewrite run_bind. cbn [fst snd ret]. split; [reflexivity | reflexivity].
  - rewrite (GetSandboxState_versioned sbx cache c Hrv).
    destruct (cache !! cacheKey sbx) as [[e|tag]|] eqn:Hl; cbn [fst snd];
      try (split; reflexivity).
    split.
    + apply insert_subseteq. exact Hl.
    + intros key Hkey. apply lookup_insert_ne. congruence.
Qed.

(** X19. A value of a foreign type under the key of a sandbox is neither
    used nor repaired: the call returns the freshly computed pair and
    leaves the cache, that value included, as it is. *)
Theorem X19_foreign_entry_recomputed (sbx : Sandbox.t)
    (cache : gmap string sandboxutils.any) (c : Clock) (tag : nat) :
  Sandbox.ResourceVersion sbx <> "" ->
  cache !! cacheKey sbx = Some (sandboxutils.anyOther tag) ->
  GetSandboxState sbx cache c
  = (fst (computeSandboxState sbx c), cache, snd (computeSandboxState sbx c)).
Proof.
  intros Hrv Hl. rewrite (GetSandboxState_versioned sbx cache c Hrv), Hl.
  reflexivity.
Qed.


End MoreCache.

(** X21. Invalidation is confined to one sandbox: when namespaces and names
    contain no slash, DeleteSandboxCache for one namespace and name leaves
    the entry of every resource version of a sandbox with another namespace
    or another name as it is. *)
Theorem X21_delete_keeps_other_sandboxes (namespace name : string)
    (sbx : sandboxapi.Sandbox.t) (cache : gmap string sandboxutils.any) :
  noSlash namespace = true -> noSlash name = true ->
  noSlash (sandboxapi.Sandbox.Namespace sbx) = true ->
  noSlash (sandboxapi.Sandbox.Name sbx) = true ->
  (sandboxapi.Sandbox.Namespace sbx <> namespace
   \/ sandboxapi.Sandbox.Name sbx <> name) ->
  sandboxutils.DeleteSandboxCache namespace name cache !! cacheKey sbx
  = cache !! cacheKey sbx.
Proof.
  intros H1 H2 H3 H4 Hdiff.
  destruct (String.eqb_spec namespace "") as [->|Hns]; [reflexivity|].
  destruct (String.eqb_spec name "") as [->|Hn].
  { unfold sandboxutils.DeleteSandboxCache. rewrite orb_true_r. reflexivity. }
  rewrite DeleteSandboxCache_lookup by assumption.
  destruct (String.prefix _ (cacheKey sbx)) eqn:E; [|reflexivity].
  exfalso. unfold cacheKey in E.
  change (namespace ++ "/" ++ name ++ "/")
    with (namespace ++ String "/" (name ++ String "/" "")) in E.
  change (sandboxapi.Sandbox.Namespace sbx ++ "/"
            ++ sandboxapi.Sandbox.Name sbx ++ "/"
            ++ sandboxapi.Sandbox.ResourceVersion sbx)
    with (sandboxapi.Sandbox.Namespace sbx
            ++ String "/" (sandboxapi.Sandbox.Name sbx
                             ++ String "/"
                                  (sandboxapi.Sandbox.ResourceVersion sbx)))
    in E.
  apply prefix_segment in E as [Hns' E]; [|assumption..].
  apply prefix_segment in E as [Hn' _]; [|assumption..].
  destruct Hdiff as [Hd|Hd]; apply Hd; congruence.
Qed.

(** X22. DeleteSandboxCache only removes entries, and doing it twice is the
    same as doing it once. *)
Theorem X22_delete_shrinks_idempotent (namespace name : string)
    (cache : gmap string sandboxutils.any) :
  sandboxutils.DeleteSandboxCache namespace name cache ⊆ cache
  /\ sandboxutils.DeleteSandboxCache namespace name
       (sandboxutils.DeleteSandboxCache namespace name cache)
     = sandboxutils.DeleteSandboxCache namespace name cache.
Proof.
  unfold sandboxutils.DeleteSandboxCache.
  destruct (String.eqb namespace "" || String.eqb name "").
  - split; reflexivity.
  - split.
    + apply map_filter_subseteq.
    + apply map_filter_id. intros key v Hl.
      apply map_lookup_filter_Some in Hl as [_ HP]. exact HP.
Qed.

(** ** The validating webhook, every operation *)

Section MoreWebhook.

Context `{h_Decoder : admission.Decoder}.

(** X23. Every response of the webhook is well formed: an allowed response
    has code 200 and an empty message; a response that is not allowed has
    code 400, or code 403, and the latter only for an update. *)
Theorem X23_response_codes (req : admission.Request.t) :
  (admission.Response.Allowed (validating.Handle req) = true ->
     admission.Response.Code (validating.Handle req) = admission.StatusOK
     /\ admission.Response.Message (validating.Handle req) = "")
  /\ (admission.Response.Allowed (validating.Handle req) = false ->
       admission.Response.Code (validating.Handle req)
         = admission.StatusBadRequest
       \/ (admission.Response.Code (validating.Handle req)
             = admission.StatusForbidden
           /\ admission.Request.Operation req = admission.Update)).
Proof.
  unfold validating.Handle.
  destruct (String.eqb (admission.Request.Operation req) admission.Create).
  { unfold validating.handleCreate.
    destruct (admission.Decode req); cbn; split; intros; auto; discriminate. }
  destruct (String.eqb_spec (admission.Request.Operation req)
                            admission.Update) as [Hop|Hop].
  { unfold validating.handleUpdate.
    destruct (admission.DecodeRaw _);
      [|cbn; split; intros; auto; discriminate].
    destruct (admission.Decode req);
      [|cbn; split; intros; auto; discriminate].
    destruct (negb _); cbn; split; intros; auto; discriminate. }
  destruct (String.eqb (admission.Request.Operation req) admission.Delete);
    cbn; split; intros; auto; discriminate.
Qed.

(** X24. Creation and deletion are not validated: a create request is
    allowed exactly when its object decodes, whatever the claim says; a
    delete request is allowed without decoding anything; and a request with
    any other operation than create, update and delete is rejected with
    code 400 and a message that names the operation. *)
Theorem X24_create_delete_other (req : admission.Request.t) :
  (admission.Request.Operation req = admission.Create ->
     (admission.Response.Allowed (validating.Handle req) = true
        <-> exists claim, admission.Decode req = inl claim)
     /\ (forall err, admission.Decode req = inr err ->
           validating.Handle req
           = admission.Errored admission.StatusBadRequest err))
  /\ (admission.Request.Operation req = admission.Delete ->
       validating.Handle req = admission.Allowed "")
  /\ (admission.Request.Operation req <> admission.Create ->
      admission.Request.Operation req <> admission.Update ->
      admission.Request.Operation req <> admission.Delete ->
      validating.Handle req
      = admission.Errored admission.StatusBadRequest
          ("unsupported operation: " ++ admission.Request.Operation req)).
Proof.
  unfold validating.Handle. split; [|split].
  - intros ->. cbn. unfold validating.handleCreate.
    destruct (admission.Decode req) as [claim|err]; cbn.
    + split; [split; eauto | discriminate].
    + split; [split; [discriminate | intros (claim & [=])]|].
      intros err' [= <-]. reflexivity.
  - intros ->. reflexivity.
  - intros H1 H2 H3. apply String.eqb_neq in H1, H2, H3.
    rewrite H1, H2, H3. reflexivity.
Qed.

(** X25. An update whose objects do not decode is rejected with code 400:
    the old object is decoded first, and when it fails the new object is
    not looked at; the message tells which of the two failed. *)
Theorem X25_update_decode_errors (req : admission.Request.t) :
  admission.Request.Operation req = admission.Update ->
  (forall err,
      admission.DecodeRaw (admission.Request.OldObject req) = inr err ->
      validating.Handle req
      = admission.Errored admission.StatusBadRequest
          ("failed to decode old object: " ++ err))
  /\ (forall oldClaim err,
        admission.DecodeRaw (admission.Request.OldObject req) = inl oldClaim ->
        admission.Decode req = inr err ->
        validating.Handle req
        = admission.Errored admission.StatusBadRequest
            ("failed to decode new object: " ++ err)).
Proof.
  intros Hop. rewrite (Handle_update req Hop).
  unfold validating.handleUpdate. split.
  - intros err ->. reflexivity.
  - intros oldClaim err -> ->. reflexivity.
Qed.

End MoreWebhook.

(** ** The resource version reactors *)

Lemma fmt_d_parse (z : Z) :
  NilZero.int_of_string (fmt.d z) = Some (Z.to_int z).
Proof.
  unfold fmt.d. apply NilZero.isi.
  - intros H.
    assert (Hz : Z.of_int (Z.to_int z) = Z.of_int (Decimal.Pos Decimal.Nil))
      by (rewrite H; reflexivity).
    rewrite DecimalZ.of_to in Hz. cbn in Hz. subst z. discriminate H.
  - intros H.
    assert (Hz : Z.of_int (Z.to_int z) = Z.of_int (Decimal.Neg Decimal.Nil))
      by (rewrite H; reflexivity).
    rewrite DecimalZ.of_to in Hz. cbn in Hz. subst z. discriminate H.
Qed.

Lemma fmt_d_inj (z1 z2 : Z) : fmt.d z1 = fmt.d z2 -> z1 = z2.
Proof.
  intros H. apply DecimalZ.to_int_inj.
  pose proof (fmt_d_parse z1) as H1. rewrite H, fmt_d_parse in H1.
  congruence.
Qed.

Lemma fmt_d_nonempty (z : Z) : fmt.d z <> "".
Proof.
  intros H. pose proof (fmt_d_parse z) as Hp. rewrite H in Hp. discriminate.
Qed.

Lemma wrapInt64_id (z : Z) : - 2 ^ 63 <= z < 2 ^ 63 -> clients.wrapInt64 z = z.
Proof.
  intros Hz. unfold clients.wrapInt64.
  rewrite Z.mod_small by lia. lia.
Qed.

(** X26. Neither reactor ever handles an action or returns an object, so the
    fake client always goes on to its own logic; a reactor reports an error
    only for an object without metadata; and all it may change in an action
    is the resource version of the sandbox the action carries, with the
    counter moving only when it does so. *)
Theorem X26_reactors_pass_through (action : clients.Action) (counter : Z) :
  Forall
    (fun out : clients.Reaction.t * clients.Action * Z =>
       let '(reaction, action', counter') := out in
       clients.Reaction.handled reaction = false
       /\ clients.Reaction.ret reaction = None
       /\ (clients.Reaction.err reaction <> None <->
             exists tag,
               action = clients.objectAction
                          (Some (clients.opaqueObject tag)))
       /\ (action' = action /\ counter' = counter
           \/ exists sbx,
                action = clients.objectAction
                           (Some (clients.sandboxObject sbx))
                /\ counter' = clients.AddInt64 counter 1
                /\ action' = clients.objectAction
                               (Some (clients.sandboxObject
                                        (clients.SetResourceVersion
                                           (clients.FormatInt10 counter')
                                           sbx)))))
    [clients.createReactor action counter;
     clients.updateReactor action counter].
Proof.
  repeat constructor.
  - unfold clients.createReactor.
    destruct action as [[[sbx|tag]|]|]; cbn.
    + destruct (_ || _); cbn;
        (repeat split; try discriminate;
         [intros H; contradiction | intros (tag & [=]) | eauto]).
    + repeat split; try discriminate; eauto.
    + repeat split; try discriminate; eauto;
        [intros H; contradiction | intros (tag & [=])].
    + repeat split; try discriminate; eauto;
        [intros H; contradiction | intros (tag & [=])].
  - unfold clients.updateReactor.
    destruct action as [[[sbx|tag]|]|]; cbn.
    + repeat split; try discriminate;
        [intros H; contradiction | intros (tag & [=]) | eauto].
    + repeat split; try discriminate; eauto.
    + repeat split; try discriminate; eauto;
        [intros H; contradiction | intros (tag & [=])].
    + repeat split; try discriminate; eauto;
        [intros H; contradiction | intros (tag & [=])].
Qed.

Lemma updateAll_cons (sbx : sandboxapi.Sandbox.t)
    (sbxs : list sandboxapi.Sandbox.t) (counter : Z) :
  updateAll (sbx :: sbxs) counter
  = (clients.objectAction
       (Some (clients.sandboxObject
                (clients.SetResourceVersion
                   (clients.FormatInt10 (clients.AddInt64 counter 1)) sbx)))
       :: fst (updateAll sbxs (clients.AddInt64 counter 1)),
     snd (updateAll sbxs (clients.AddInt64 counter 1))).
Proof.
  cbn [updateAll clients.updateReactor].
  destruct (updateAll sbxs (clients.AddInt64 counter 1)); reflexivity.
Qed.

(** X27. Successive updates get successive resource versions: as long as
    the counter stays within its range, the update reactor run over a
    sequence of sandboxes gives the i-th one the decimal numeral of the
    counter plus i, so that all the versions assigned are different, and
    leaves the counter advanced by the number of updates. *)
Theorem X27_updates_get_fresh_versions (sbxs : list sandboxapi.Sandbox.t)
    (counter : Z) :
  0 <= counter ->
  counter + Z.of_nat (length sbxs) < 2 ^ 63 ->
  snd (updateAll sbxs counter) = counter + Z.of_nat (length sbxs)
  /\ map actionResourceVersion (fst (updateAll sbxs counter))
     = map (fun i => Some (clients.FormatInt10 (counter + Z.of_nat i)))
           (seq 1 (length sbxs))
  /\ NoDup (map actionResourceVersion (fst (updateAll sbxs counter))).
Proof.
  intros Hlo Hhi.
  assert (Hrun : snd (updateAll sbxs counter)
                 = counter + Z.of_nat (length sbxs)
                 /\ map actionResourceVersion (fst (updateAll sbxs counter))
                    = map (fun i => Some (clients.FormatInt10
                                            (counter + Z.of_nat i)))
                          (seq 1 (length sbxs))).
  { revert counter Hlo Hhi.
    induction sbxs as [|sbx sbxs IH]; intros counter Hlo Hhi.
    - cbn. split; [lia | reflexivity].
    - rewrite updateAll_cons. cbn [fst snd length map seq].
      cbn [length] in Hhi.
      assert (Hadd : clients.AddInt64 counter 1 = counter + 1).
      { unfold clients.AddInt64. apply wrapInt64_id. lia. }
      rewrite Hadd.
      destruct (IH (counter + 1)) as (Hc & Hv); [lia | lia |].
      rewrite Hc, Hv. split; [lia|].
      cbn [actionResourceVersion sandboxapi.Sandbox.ResourceVersion
           clients.SetResourceVersion].
      change (Z.of_nat 1) with 1.
      apply (f_equal2 cons); [reflexivity|].
      rewrite <- (seq_shift (length sbxs) 1), map_map.
      apply map_ext. intros i.
      replace (counter + 1 + Z.of_nat i) with (counter + Z.of_nat (S i))
        by lia.
      reflexivity. }
  destruct Hrun as (Hc & Hv). split; [exact Hc|]. split; [exact Hv|].
  rewrite Hv.
  assert (Hinj : Inj (=) (=)
                   (fun i : nat =>
                      Some (clients.FormatInt10 (counter + Z.of_nat i)))).
  { intros i j [= Heq]. apply fmt_d_inj in Heq. lia. }
  apply (NoDup_fmap_2 _ _ (NoDup_seq 1 (length sbxs))).
Qed.

(** X28. The create reactor assigns a version only to an object that has
    none: a sandbox whose resource version is neither empty nor "0" keeps
    it, and the counter is not consumed; one whose resource version is
    empty or "0" gets the decimal numeral of the incremented counter.  In
    both cases the resource version is not empty afterwards. *)
Theorem X28_create_assigns_missing_version (sbx : sandboxapi.Sandbox.t)
    (counter : Z) :
  let action := clients.objectAction (Some (clients.sandboxObject sbx)) in
  let out := clients.createReactor action counter in
  let rv := sandboxapi.Sandbox.ResourceVersion sbx in
  (rv <> "" -> rv <> "0" ->
     snd (fst out) = action /\ snd out = counter)
  /\ (rv = "" \/ rv = "0" ->
       snd out = clients.AddInt64 counter 1
       /\ snd (fst out)
          = clients.objectAction
              (Some (clients.sandboxObject
                       (clients.SetResourceVersion
                          (clients.FormatInt10 (clients.AddInt64 counter 1))
                          sbx))))
  /\ (exists rv', actionResourceVersion (snd (fst out)) = Some rv'
                  /\ rv' <> "").
Proof.
  intros action out rv. subst action out rv.
  unfold clients.createReactor.
  destruct (String.eqb_spec (sandboxapi.Sandbox.ResourceVersion sbx) "")
    as [H1|H1].
  { cbn [orb fst snd]. split; [intros; contradiction|].
    split; [intros _; split; reflexivity|].
    eexists. split; [reflexivity|]. apply fmt_d_nonempty. }
  destruct (String.eqb_spec (sandboxapi.Sandbox.ResourceVersion sbx) "0")
    as [H2|H2].
  { cbn [orb fst snd]. split; [intros; contradiction|].
    split; [intros _; split; reflexivity|].
    eexists. split; [reflexivity|]. apply fmt_d_nonempty. }
  cbn [orb fst snd]. split; [intros; split; reflexivity|].
  split; [intros [H|H]; contradiction|].
  eexists. split; [reflexivity|]. exact H1.
Qed.

(* ===================================================================== *)
(** * The further properties at concrete inputs *)
(* ===================================================================== *)

(** The pool of a claiming claim has gone: the flag is raised and the phase
    is Completed. *)
Lemma X2_skip_witness :
  SandboxClaimStatus.Phase
    (fst (result sampleDurationString
            (core.ClaimArgs.mk claimTen None (claimingSince100 3))
            (constClock (200 * time.Second))))
  = SandboxClaimPhaseCompleted.
Proof.
  destruct (X2_skip_only_with_completion sampleDurationString
              (core.ClaimArgs.mk claimTen None (claimingSince100 3))
              (constClock (200 * time.Second)) eq_refl)
    as (_ & _ & Hphase & _).
  exact Hphase.
Defined.

(** A claim that goes on waiting keeps its start time and its (empty)
    condition list. *)
Lemma X3_fields_witness :
  let out :=
    fst (result sampleDurationString
           (core.ClaimArgs.mk claimTen (Some poolA) (claimingSince100 3))
           (constClock (101 * time.Second))) in
  SandboxClaimStatus.ClaimStartTime out = Some (100 * time.Second)
  /\ SandboxClaimStatus.Conditions out = [].
Proof.
  cbn zeta.
  destruct (X3_fields_left_alone sampleDurationString
              (core.ClaimArgs.mk claimTen (Some poolA) (claimingSince100 3))
              (constClock (101 * time.Second)))
    as (_ & Hstart & Hkeep).
  split.
  - apply Hstart. discriminate.
  - apply Hkeep. reflexivity.
Defined.

(** Completing a claim keeps the condition of another type it carries. *)
Lemma X4_conditions_witness :
  findCondition
    (SandboxClaimStatus.Conditions
       (fst (result sampleDurationString
               (core.ClaimArgs.mk claimTen None claimingWithCondition)
               (constClock (101 * time.Second)))))
    "TestCondition"
  = Some condA.
Proof.
  destruct (X4_conditions_never_dropped sampleDurationString
              (core.ClaimArgs.mk claimTen None claimingWithCondition)
              (constClock (101 * time.Second)) "TestCondition")
    as (_ & Hsame).
  rewrite Hsame by discriminate. reflexivity.
Defined.

(** Ten of ten replicas are claimed, but the five seconds have run out: the
    claim completes with reason TimeoutReached. *)
Lemma X5_timeout_witness :
  exists st',
    result sampleDurationString
      (core.ClaimArgs.mk claimTen (Some poolA) (claimingSince100 10))
      (constClock (106 * time.Second)) = (st', true)
    /\ findCondition (SandboxClaimStatus.Conditions st')
         SandboxClaimConditionCompleted
       = Some (metav1.Condition.mk SandboxClaimConditionCompleted
                 metav1.ConditionTrue 0 (106 * time.Second) "TimeoutReached"
                 "Timeout reached after 6000000000ns, claimed 10/10 sandboxes").
Proof.
  destruct (X5_timeout_transition sampleDurationString
              (core.ClaimArgs.mk claimTen (Some poolA) (claimingSince100 10))
              (constClock (106 * time.Second)) poolA
              (5 * time.Second) (100 * time.Second))
    as (st' & Hres & _ & _ & _ & _ & Hcond);
    try reflexivity; try discriminate.
  exists st'. split; [exact Hres | exact Hcond].
Defined.

(** A new claim started at second 100 keeps that start time when its pool
    has gone a second later. *)
Lemma X6_start_time_witness :
  Forall (fun s => SandboxClaimStatus.ClaimStartTime s
                   = Some (100 * time.Second))
    (successive sampleDurationString
       [ mkPass claimTen (Some poolA) (constClock (100 * time.Second));
         mkPass claimTen None (constClock (101 * time.Second)) ]
       emptyStatus).
Proof.
  apply (X6_start_time_set_once sampleDurationString
           (mkPass claimTen (Some poolA) (constClock (100 * time.Second)))
           [ mkPass claimTen None (constClock (101 * time.Second)) ]
           emptyStatus).
  reflexivity.
Defined.

(** A completed claim, reconciled again after its pool has gone. *)
Lemma X7_completed_frozen_witness :
  Forall (fun s => s = SandboxClaimStatus.set_ObservedGeneration
                         (SandboxClaimStatus.ObservedGeneration s)
                         completedStatus)
    (successive sampleDurationString
       [ mkPass claimOne None (constClock (200 * time.Second));
         mkPass claimTen (Some poolA) (constClock (300 * time.Second)) ]
       completedStatus).
Proof.
  apply (X7_completed_status_frozen sampleDurationString
           [ mkPass claimOne None (constClock (200 * time.Second));
             mkPass claimTen (Some poolA) (constClock (300 * time.Second)) ]
           completedStatus).
  reflexivity.
Defined.

(** Exactly five seconds after the start, the timeout of five seconds is
    reached. *)
Lemma X8_threshold_witness :
  fst (core.isClaimTimeout claimTen (claimingSince100 3)
         (constClock (105 * time.Second))) = true.
Proof.
  destruct (X8_timeout_threshold claimTen (claimingSince100 3)
              (constClock (105 * time.Second))) as (_ & Hexact).
  apply (Hexact (5 * time.Second) (100 * time.Second) eq_refl eq_refl).
  - split; discriminate.
  - discriminate.
Defined.

(** Reached at second 105, still reached at second 200. *)
Lemma X9_stays_reached_witness :
  fst (core.isClaimTimeout claimTen (claimingSince100 3)
         (constClock (200 * time.Second))) = true.
Proof.
  apply (X9_timeout_stays_reached claimTen (claimingSince100 3)
           (constClock (105 * time.Second))
           (constClock (200 * time.Second))).
  - discriminate.
  - reflexivity.
Defined.

Lemma X10_idempotent_witness :
  core.setCondition (Some [condB; condA']) condA' = Some [condB; condA'].
Proof.
  apply (X10_setCondition_idempotent [condB; condA] [condB; condA'] condA').
  reflexivity.
Defined.

Lemma X11_lookup_witness :
  findCondition [condB; condA'] "TestCondition" = Some condA'
  /\ findCondition [condB; condA'] "AnotherCondition" = Some condB.
Proof.
  destruct (X11_setCondition_lookup [condB; condA] [condB; condA'] condA'
              eq_refl) as (Hsame & Hother & _).
  split; [exact Hsame|].
  rewrite (Hother "AnotherCondition") by discriminate. reflexivity.
Defined.

(** A claimed sandbox whose shutdown time is the present instant is still
    running. *)
Lemma X12_shutdown_witness :
  fst (sandboxutils.computeSandboxState sampleGetSandboxCondition
         (readySandbox "sbx-1" [] sandboxapi.SandboxRunning false (Some 50))
         (constClock 50))
  = (sandboxapi.SandboxStateRunning, "RunningResourceClaimedAndReady").
Proof.
  destruct (X12_shutdown_time_strict sampleGetSandboxCondition
              (readySandbox "sbx-1" [] sandboxapi.SandboxRunning false
                 (Some 50))
              (constClock 50) 50 eq_refl eq_refl) as (_ & Hphase & _).
  rewrite Hphase by discriminate. reflexivity.
Defined.

(** A ready sandbox of a pool is available even with its pause flag set. *)
Lemma X13_pool_owned_witness :
  fst (sandboxutils.computeSandboxState sampleGetSandboxCondition
         (readySandbox "sbx-1" [refSandboxSet] sandboxapi.SandboxRunning
            true None)
         (constClock 0))
  = (sandboxapi.SandboxStateAvailable, "ResourceControlledBySbsAndReady").
Proof.
  rewrite (X13_pool_owned_classification sampleGetSandboxCondition
             (readySandbox "sbx-1" [refSandboxSet] sandboxapi.SandboxRunning
                true None)
             (constClock 0));
    try reflexivity; discriminate.
Defined.

(** The first controller is a Deployment: the SandboxSet reference behind
    it does not count. *)
Lemma X14_first_controller_witness :
  sandboxutils.IsControlledBySandboxCR
    (readySandbox "sbx-1" [refPlain; refDeployment; refSandboxSet]
       sandboxapi.SandboxRunning false None)
  = false.
Proof.
  destruct (X14_first_controller_decides
              (readySandbox "sbx-1" [refPlain; refDeployment; refSandboxSet]
                 sandboxapi.SandboxRunning false None)
              [refPlain] [refSandboxSet] refDeployment) as (Hfirst & _).
  rewrite Hfirst; [reflexivity | reflexivity | | reflexivity].
  repeat constructor. discriminate.
Defined.

(** A claimed sandbox whose phase is unset is paused. *)
Lemma X15_unset_phase_witness :
  fst (sandboxutils.computeSandboxState sampleGetSandboxCondition
         (readySandbox "sbx-1" [] "" false None) (constClock 0))
  = (sandboxapi.SandboxStatePaused, "NotRunningResourceClaimed").
Proof.
  apply (X15_claimed_not_running_is_paused sampleGetSandboxCondition
           (readySandbox "sbx-1" [] "" false None) (constClock 0));
    try reflexivity; discriminate.
Defined.


(** Classifying sbx-1 leaves the entry of sbx-2 in place. *)
Lemma X18_only_grows_witness :
  snd (fst (sandboxutils.GetSandboxState sampleGetSandboxCondition
              (readySandbox "sbx-1" [] sandboxapi.SandboxRunning false None)
              sampleCache (constClock 0)))
    !! "default/sbx-2/17"
  = sampleCache !! "default/sbx-2/17".
Proof.
  destruct (X18_cache_only_grows sampleGetSandboxCondition
              (readySandbox "sbx-1" [] sandboxapi.SandboxRunning false None)
              sampleCache (constClock 0)) as (_ & Hother).
  apply Hother. discriminate.
Defined.

Lemma X19_foreign_entry_witness :
  fst (sandboxutils.GetSandboxState sampleGetSandboxCondition
         (readySandbox "sbx-1" [] sandboxapi.SandboxRunning false None)
         foreignCache (constClock 0))
  = (sandboxapi.SandboxStateRunning, "RunningResourceClaimedAndReady",
     foreignCache).
Proof.
  rewrite (X19_foreign_entry_recomputed sampleGetSandboxCondition
             (readySandbox "sbx-1" [] sandboxapi.SandboxRunning false None)
             foreignCache (constClock 0) 0%nat).
  - reflexivity.
  - discriminate.
  - reflexivity.
Defined.


(** Invalidating sbx-1 keeps the entry of sbx-2. *)
Lemma X21_delete_keeps_witness :
  sandboxutils.DeleteSandboxCache "default" "sbx-1" sampleCache
    !! "default/sbx-2/17"
  = sampleCache !! "default/sbx-2/17".
Proof.
  apply (X21_delete_keeps_other_sandboxes "default" "sbx-1"
           (readySandbox "sbx-2" [] sandboxapi.SandboxRunning false None)
           sampleCache);
    try reflexivity.
  right. discriminate.
Defined.

(** An update from ten replicas to one is answered with code 403. *)
Lemma X23_response_codes_witness :
  admission.Response.Code
    (@validating.Handle sampleDecoder
       (admission.Request.mk admission.Update "one" "ten"))
  = admission.StatusForbidden.
Proof.
  destruct (@X23_response_codes sampleDecoder
              (admission.Request.mk admission.Update "one" "ten"))
    as (_ & Hdenied).
  destruct (Hdenied eq_refl) as [H400 | [H403 _]].
  - discriminate H400.
  - exact H403.
Defined.

(** A delete request is allowed though its object does not decode. *)
Lemma X24_delete_witness :
  @validating.Handle sampleDecoder
    (admission.Request.mk admission.Delete "garbage" "garbage")
  = admission.Allowed "".
Proof.
  destruct (@X24_create_delete_other sampleDecoder
              (admission.Request.mk admission.Delete "garbage" "garbage"))
    as (_ & Hdelete & _).
  apply Hdelete. reflexivity.
Defined.

(** Neither object decodes: the error names the old one. *)
Lemma X25_decode_error_witness :
  @validating.Handle sampleDecoder
    (admission.Request.mk admission.Update "garbage" "garbage")
  = admission.Errored admission.StatusBadRequest
      "failed to decode old object: cannot decode".
Proof.
  destruct (@X25_update_decode_errors sampleDecoder
              (admission.Request.mk admission.Update "garbage" "garbage")
              eq_refl) as (Hold & _).
  apply (Hold "cannot decode"). reflexivity.
Defined.

(** Three updates from the initial counter get the versions 2, 3 and 4. *)
Lemma X27_fresh_versions_witness :
  map actionResourceVersion
    (fst (updateAll
            [ readySandbox "sbx-1" [] sandboxapi.SandboxRunning false None;
              readySandbox "sbx-2" [] sandboxapi.SandboxRunning false None;
              readySandbox "sbx-1" [] sandboxapi.SandboxRunning true None ]
            clients.initialResourceVersionCounter))
  = [Some "2"; Some "3"; Some "4"].
Proof.
  destruct (X27_updates_get_fresh_versions
              [ readySandbox "sbx-1" [] sandboxapi.SandboxRunning false None;
                readySandbox "sbx-2" [] sandboxapi.SandboxRunning false None;
                readySandbox "sbx-1" [] sandboxapi.SandboxRunning true None ]
              clients.initialResourceVersionCounter)
    as (_ & Hversions & _).
  - discriminate.
  - reflexivity.
  - rewrite Hversions. reflexivity.
Defined.

(** Creating a sandbox that already has version 17 consumes no counter
    value. *)
Lemma X28_create_witness :
  snd (clients.createReactor
         (clients.objectAction
            (Some (clients.sandboxObject
                     (readySandbox "sbx-1" [] sandboxapi.SandboxRunning
                        false None))))
         clients.initialResourceVersionCounter)
  = clients.initialResourceVersionCounter.
Proof.
  destruct (X28_create_assigns_missing_version
              (readySandbox "sbx-1" [] sandboxapi.SandboxRunning false None)
              clients.initialResourceVersionCounter) as (Hkeep & _).
  apply Hkeep; discriminate.
Defined.
